(** * The RSS backend of Perceval (perceval/backends/core/rss.py)

    A shallow embedding of the [RSS] backend class and of its HTTP client
    [RSSClient]: the live fetch generator [fetch], the cache replay
    generator [fetch_from_cache] and the three metadata extractors
    [metadata_id], [metadata_updated_on] and [metadata_category].

    Python generators are modelled as explicit frames with a [resume]
    function: creating a generator runs nothing, every [next] runs the body
    up to the following [yield].  Effects (cache queue, persistent cache,
    HTTP requests, log lines) are threaded through a state-and-exception
    monad over a [World] that also records the trace of effects. *)

From Stdlib Require Import ZArith QArith Lia List String Ascii.
From stdpp Require Import base gmap strings list pretty.

Local Open Scope Z_scope.

(* ================================================================== *)
(** ** Python values, feed entries and exceptions *)
(* ================================================================== *)

(** The values a feed entry field can hold, as far as this backend looks
    at them. *)
Inductive value : Type :=
| VNone
| VBool (b : bool)
| VInt (n : Z)
| VStr (s : string).

(** Python's [str(v)]. *)
Definition py_str (v : value) : string :=
  match v with
  | VNone => "None"
  | VBool true => "True"
  | VBool false => "False"
  | VInt n => pretty n
  | VStr s => s
  end.

(** An entry of a feed: a dictionary from field names to values. *)
Abbreviation Entry := (gmap string value).

(** The exceptions that can travel through the backend. *)
Inductive exn : Type :=
| KeyError (key : string)       (* subscript of a dictionary on a missing key *)
| StopIteration                 (* [next] on an exhausted iterator *)
| CacheError (cause : string)   (* perceval.errors.CacheError, the one cache error class *)
| HTTPError (status : Z)        (* requests: [raise_for_status] *)
| ConnectionError               (* requests: connection-level failure *)
| DateParseError (date : value) (* raised by [str_to_datetime] *)
| ParseError                    (* feed parser: payload that cannot be decoded *)
| RuntimeError (msg : string)   (* a [StopIteration] that escaped a generator *)
| IOError (msg : string).       (* a failed operation on a file *)

Inductive result (A : Type) : Type :=
| Ok (a : A)
| Raise (e : exn).

Arguments Ok {A} a.
Arguments Raise {A} e.

(** [item[key]] *)
Definition getitem (item : Entry) (key : string) : result value :=
  match item !! key with
  | Some v => Ok v
  | None => Raise (KeyError key)
  end.

(** Membership of an exception in the class [CacheError]. *)
Definition is_CacheError (e : exn) : bool :=
  match e with
  | CacheError _ => true
  | _ => false
  end.

(* ================================================================== *)
(** ** Python's [datetime]: ordinals and [timestamp()] *)
(* ================================================================== *)

(** An aware [datetime]; [utcoffset] is in seconds east of UTC. *)
Record datetime : Type := {
  year : Z; month : Z; day : Z;
  hour : Z; minute : Z; second : Z; microsecond : Z;
  utcoffset : Z
}.

Definition is_leap (y : Z) : bool :=
  (y mod 4 =? 0) && (negb (y mod 100 =? 0) || (y mod 400 =? 0)).

(** Number of days before January 1st of [y]. *)
Definition days_before_year (y : Z) : Z :=
  let y' := y - 1 in y' * 365 + y' / 4 - y' / 100 + y' / 400.

Definition days_in_month (y m : Z) : Z :=
  if m =? 2 then (if is_leap y then 29 else 28)
  else if (m =? 4) || (m =? 6) || (m =? 9) || (m =? 11) then 30
  else 31.

(** Number of days in year [y] before the first day of month [m], for
    [m] from 1 to 12. *)
Definition days_before_month (y m : Z) : Z :=
  let table := [0; 31; 59; 90; 120; 151; 181; 212; 243; 273; 304; 334] in
  nth (Z.to_nat (m - 1)) table 0
  + (if (2 <? m) && is_leap y then 1 else 0).

(** Proleptic Gregorian ordinal, January 1st of year 1 being day 1. *)
Definition ymd2ord (y m d : Z) : Z :=
  days_before_year y + days_before_month y m + d.

Definition toordinal (dt : datetime) : Z :=
  ymd2ord (year dt) (month dt) (day dt).

Definition seconds_of_day (dt : datetime) : Z :=
  second dt + minute dt * 60 + hour dt * 3600.

(** 1970-01-01T00:00:00+00:00 *)
Definition EPOCH : datetime :=
  {| year := 1970; month := 1; day := 1;
     hour := 0; minute := 0; second := 0; microsecond := 0;
     utcoffset := 0 |}.

(** [a - b] for two aware datetimes, in microseconds. *)
Definition datetime_sub_us (a b : datetime) : Z :=
  ((toordinal a - toordinal b) * 86400
   + (seconds_of_day a - seconds_of_day b)
   + (utcoffset b - utcoffset a)) * 1000000
  + (microsecond a - microsecond b).

(** The quotient [n / d] rounded to the nearest integer, a tie going to
    the even one, for [d > 0]. *)
Definition round_half_even (n d : Z) : Z :=
  let q := n / d in
  let r := n mod d in
  if 2 * r <? d then q
  else if d <? 2 * r then q + 1
  else if Z.even q then q else q + 1.

(** The ratio [a / (d * 2^e)] as a numerator and a denominator. *)
Definition scaled_num (a e : Z) : Z := if 0 <=? e then a else a * 2 ^ (- e).

Definition scaled_den (d e : Z) : Z := if 0 <=? e then d * 2 ^ e else d.

(** The exponent of the last binary digit that a float keeps of
    [a / d > 0]: the [e] with [2^52 <= a / (d * 2^e) < 2^53], and not
    less than -1074, the exponent of the subnormal numbers. *)
Definition ulp_exponent (a d : Z) : Z :=
  let e0 := Z.log2 a - Z.log2 d - 52 in
  let e := if scaled_num a e0 / scaled_den d e0 <? 2 ^ 52 then e0 - 1 else e0 in
  Z.max e (-1074).

(** Python's [n / d] on two integers, [d > 0]: the float (IEEE 754
    binary64, 53 significant binary digits) nearest to the quotient, a tie
    going to the even significand.  A float is kept as the rational number
    it is.  A quotient too large for a float, for which Python raises, is
    out of the range of the quotients taken here (below 2^59 in
    magnitude). *)
Definition true_divide (n d : Z) : Q :=
  if n =? 0 then 0%Q
  else
    let a := Z.abs n in
    let e := ulp_exponent a d in
    let m := round_half_even (scaled_num a e) (scaled_den d e) in
    let v := if 0 <=? e then Qmake (m * 2 ^ e) 1
             else Qmake m (Z.to_pos (2 ^ (- e))) in
    Qred (if n <? 0 then Qopp v else v).

(** [dt.timestamp()] of an aware datetime: [(dt - EPOCH).total_seconds()],
    the microseconds of the difference divided by [10**6], as a float. *)
Definition timestamp (dt : datetime) : Q :=
  true_divide (datetime_sub_us dt EPOCH) 1000000.

(** The calendar, counted one year and one month at a time. *)
Definition year_length (y : Z) : Z := if is_leap y then 366 else 365.

Fixpoint days_of_years (first : Z) (n : nat) : Z :=
  match n with
  | O => 0
  | S k => year_length first + days_of_years (first + 1) k
  end.

Fixpoint days_of_months (y first : Z) (n : nat) : Z :=
  match n with
  | O => 0
  | S k => days_in_month y first + days_of_months y (first + 1) k
  end.

(** Days elapsed from 0001-01-01 to the given date, by counting. *)
Definition days_since_year1 (y m d : Z) : Z :=
  days_of_years 1 (Z.to_nat (y - 1)) + days_of_months y 1 (Z.to_nat (m - 1)) + (d - 1).

(** Whole seconds elapsed from 1970-01-01T00:00:00Z to the instant that a
    wall-clock reading with a UTC offset denotes, its microseconds left
    out, and the microseconds elapsed to that instant. *)
Definition unix_whole_seconds (dt : datetime) : Z :=
  let days := days_since_year1 (year dt) (month dt) (day dt) - days_since_year1 1970 1 1 in
  days * 86400 + hour dt * 3600 + minute dt * 60 + second dt - utcoffset dt.

Definition unix_microseconds (dt : datetime) : Z :=
  unix_whole_seconds dt * 1000000 + microsecond dt.

(** The UNIX timestamp of that instant as a float: the float nearest to
    the seconds elapsed. *)
Definition unix_seconds (dt : datetime) : Q :=
  true_divide (unix_microseconds dt) 1000000.

Definition valid_date (dt : datetime) : bool :=
  (1 <=? year dt) && (1 <=? month dt) && (month dt <=? 12)
  && (1 <=? day dt) && (day dt <=? days_in_month (year dt) (month dt)).

(* ================================================================== *)
(** ** Collaborators from outside the repository *)
(* ================================================================== *)

(** What [requests.get] hands back. *)
Record Response : Type := { status_code : Z; text : string }.

(** What [feedparser.parse] hands back; the backend reads ['entries']. *)
Record FeedParserDict : Type := { entries : list Entry; bozo : bool }.

(** The libraries the backend calls, taken as parameters:
    [requests.get], [feedparser.parse] and the date parser that
    [str_to_datetime] relies on. *)
Record Collaborators : Type := {
  requests_get : string -> result Response;
  feedparser_parse : string -> result FeedParserDict;
  dateutil_parse : string -> option datetime
}.

(* ================================================================== *)
(** ** The backend object, the world and the monad of effects *)
(* ================================================================== *)

(** Modelled from the spec: the persistent cache collaborator
    (perceval.cache.Cache is not among the sources).  It holds a single
    slot, the unit committed last; [retrieve] iterates over the payloads of
    that unit and neither operation touches anything else. *)
Record Cache : Type := { committed : list string }.

(** Modelled from the spec: the cache's commit of one unit, which becomes
    the latest one. *)
Definition Cache_store (c : Cache) (items : list string) : Cache :=
  {| committed := items |}.

(** Modelled from the spec: the cache's [retrieve], the payloads of the
    latest unit, in order; nothing when no unit was ever committed. *)
Definition Cache_retrieve (c : Cache) : list string := committed c.

Record RSSClient : Type := { client_url : string }.

(** An instance of [RSS]; [origin], [tag], [cache] and [cache_queue] are
    the attributes the base class keeps. *)
Record RSS : Type := {
  origin : string;
  tag : option string;
  cache : option Cache;
  cache_queue : list string;
  url : string;
  client : RSSClient
}.

(** [RSS.__init__] *)
Definition RSS_init (u : string) (t : option string) (c : option Cache) : RSS :=
  {| origin := u; tag := t; cache := c; cache_queue := [];
     url := u; client := {| client_url := u |} |}.

(** The observable effects, in the order in which they happen. *)
Inductive event : Type :=
| LogInfo (msg : string)
| PurgeQueue
| HttpGet (u : string)
| PushQueue (payload : string)
| ParseFeed (payload : string)
| FlushQueue
| CacheRetrieve.

Record World : Type := { self : RSS; effects : list event }.

(** State and exceptions. *)
Definition M (A : Type) : Type := World -> result A * World.

Definition ret {A : Type} (a : A) : M A := fun w => (Ok a, w).

Definition raise {A : Type} (e : exn) : M A := fun w => (Raise e, w).

Definition bind {A B : Type} (c : M A) (k : A -> M B) : M B :=
  fun w =>
    match c w with
    | (Ok a, w') => k a w'
    | (Raise e, w') => (Raise e, w')
    end.

Notation "x <- c ;; k" := (bind c (fun x => k))
  (at level 100, c at next level, k at level 200, right associativity).
Notation "c ;; k" := (bind c (fun _ => k))
  (at level 100, k at level 200, right associativity).

Definition lift {A : Type} (r : result A) : M A := fun w => (r, w).

Definition emit (e : event) : M unit :=
  fun w => (Ok tt, {| self := self w; effects := effects w ++ [e] |}).

Definition get_self : M RSS := fun w => (Ok (self w), w).

(** Attribute updates on the backend object. *)
Definition with_cache_queue (s : RSS) (q : list string) : RSS :=
  {| origin := origin s; tag := tag s; cache := cache s; cache_queue := q;
     url := url s; client := client s |}.

Definition with_cache (s : RSS) (c : Cache) : RSS :=
  {| origin := origin s; tag := tag s; cache := Some c;
     cache_queue := cache_queue s; url := url s; client := client s |}.

Definition set_cache_queue (q : list string) : M unit :=
  fun w => (Ok tt, {| self := with_cache_queue (self w) q; effects := effects w |}).

Definition set_cache (c : Cache) : M unit :=
  fun w => (Ok tt, {| self := with_cache (self w) c; effects := effects w |}).

(** [logger.info] *)
Definition logger_info (msg : string) : M unit := emit (LogInfo msg).

(* ================================================================== *)
(** ** The cache queue of the base class *)
(* ================================================================== *)

(** Modelled from the spec: [Backend._purge_cache_queue] (the base class
    is not among the sources) clears any pending state. *)
Definition _purge_cache_queue : M unit :=
  emit PurgeQueue ;; set_cache_queue [].

(** Modelled from the spec: [Backend._push_cache_queue] appends a raw
    payload to the pending buffer and does not touch persistent storage. *)
Definition _push_cache_queue (payload : string) : M unit :=
  emit (PushQueue payload) ;;
  s <- get_self ;;
  set_cache_queue (cache_queue s ++ [payload]).

(** Modelled from the spec: [Backend._flush_cache_queue] commits the whole
    pending buffer to persistent storage as a single retrievable unit and
    then clears the buffer.  Without a cache collaborator there is no
    storage to commit to. *)
Definition _flush_cache_queue : M unit :=
  emit FlushQueue ;;
  s <- get_self ;;
  match cache s with
  | Some c => set_cache (Cache_store c (cache_queue s)) ;; set_cache_queue []
  | None => set_cache_queue []
  end.

(* ================================================================== *)
(** ** Generators *)
(* ================================================================== *)

(** What a call of [next] on a generator gives. *)
Inductive next_result (A : Type) : Type :=
| Yielded (x : A)
| Exhausted
| Raised (e : exn).

Arguments Yielded {A} x.
Arguments Exhausted {A}.
Arguments Raised {A} e.

(** An exception on its way out of a generator body: a [StopIteration]
    raised inside the body is replaced by a [RuntimeError] (PEP 479), any
    other exception leaves as it is. *)
Definition escaping (e : exn) : exn :=
  match e with
  | StopIteration => RuntimeError "generator raised StopIteration"
  | _ => e
  end.

(** [next(g)] for a generator whose body is [resume]: the body runs from
    the frame it was suspended in to the following [yield] ([Some]), to
    its end ([None]) or to an uncaught exception, which finishes the
    generator. *)
Definition gen_next {F A : Type} (resume : F -> M (option A * F)) (finished : F)
  (f : F) (w : World) : next_result A * F * World :=
  match resume f w with
  | (Ok (Some x, f'), w') => (Yielded x, f', w')
  | (Ok (None, _), w') => (Exhausted, finished, w')
  | (Raise e, w') => (Raised (escaping e), finished, w')
  end.

(** How the consumption of a generator ended. *)
Inductive ending : Type :=
| Completed
| Failed (e : exn)
| Pending.

Record run (F A : Type) : Type := {
  produced : list A;
  ended : ending;
  frame_after : F;
  world_after : World
}.

Arguments produced {F A} r.
Arguments ended {F A} r.
Arguments frame_after {F A} r.
Arguments world_after {F A} r.

(** [for x in g: ...] with at most [fuel] calls of [next]: the elements
    received, in order, and how the loop ended. *)
Fixpoint consume {F A : Type} (next : F -> World -> next_result A * F * World)
  (fuel : nat) (f : F) (w : World) : run F A :=
  match fuel with
  | O => {| produced := []; ended := Pending; frame_after := f; world_after := w |}
  | S k =>
      match next f w with
      | (Yielded x, f', w') =>
          let r := consume next k f' w' in
          {| produced := x :: produced r; ended := ended r;
             frame_after := frame_after r; world_after := world_after r |}
      | (Exhausted, f', w') =>
          {| produced := []; ended := Completed; frame_after := f'; world_after := w' |}
      | (Raised e, f', w') =>
          {| produced := []; ended := Failed e; frame_after := f'; world_after := w' |}
      end
  end.

(* ================================================================== *)
(** ** [RSSClient] *)
(* ================================================================== *)

(** [Response.raise_for_status()]: client and server error statuses
    raise [HTTPError]. *)
Definition raise_for_status (r : Response) : result unit :=
  if (400 <=? status_code r) && (status_code r <? 600)
  then Raise (HTTPError (status_code r))
  else Ok tt.

(** [RSSClient.get_entries] *)
Definition get_entries (env : Collaborators) (c : RSSClient) : M string :=
  emit (HttpGet (client_url c)) ;;
  req <- lift (requests_get env (client_url c)) ;;
  lift (raise_for_status req) ;;
  ret (text req).

(* ================================================================== *)
(** ** [RSS]: metadata extractors *)
(* ================================================================== *)

(** [RSS.metadata_id]: [str(item['link'])] *)
Definition metadata_id (item : Entry) : result string :=
  match getitem item "link" with
  | Ok v => Ok (py_str v)
  | Raise e => Raise e
  end.

(** Modelled from the spec: [str_to_datetime] (perceval.utils is not among
    the sources) hands the text to a general-purpose date parser and fails
    with a [DateParseError] when the text is not a date.  The datetime it
    returns is aware: it carries its offset from UTC. *)
Definition str_to_datetime (env : Collaborators) (ts : value) : result datetime :=
  match ts with
  | VStr s =>
      match dateutil_parse env s with
      | Some dt => Ok dt
      | None => Raise (DateParseError ts)
      end
  | _ => Raise (DateParseError ts)
  end.

(** [RSS.metadata_updated_on]:
    [ts = str_to_datetime(item['published']); return ts.timestamp()] *)
Definition metadata_updated_on (env : Collaborators) (item : Entry) : result Q :=
  match getitem item "published" with
  | Ok v =>
      match str_to_datetime env v with
      | Ok ts => Ok (timestamp ts)
      | Raise e => Raise e
      end
  | Raise e => Raise e
  end.

(** [RSS.metadata_category] *)
Definition metadata_category (item : Entry) : string := "entry".

(* ================================================================== *)
(** ** The [metadata] decorator *)
(* ================================================================== *)

(** Modelled from the spec: the record the [metadata] decorator yields
    (perceval.backend is not among the sources): the three derived fields
    and the original entry nested underneath. *)
Record Item : Type := {
  item_id : string;
  updated_on : Q;
  category : string;
  data : Entry
}.

(** Modelled from the spec: the metadata envelope of one entry, the
    identifier first, then the update time, then the category. *)
Definition envelope (env : Collaborators) (entry : Entry) : result Item :=
  match metadata_id entry with
  | Raise e => Raise e
  | Ok i =>
      match metadata_updated_on env entry with
      | Raise e => Raise e
      | Ok t =>
          Ok {| item_id := i; updated_on := t;
                category := metadata_category entry; data := entry |}
      end
  end.

(** Modelled from the spec: the frames of a generator made by a method
    under the [metadata] decorator: created, iterating over the generator
    [inner] of the method, or finished. *)
Inductive metadata_frame (F : Type) : Type :=
| MetaCreated
| MetaIterating (inner : F)
| MetaFinished.

Arguments MetaCreated {F}.
Arguments MetaIterating {F} inner.
Arguments MetaFinished {F}.

(** Modelled from the spec: one round of the loop of the [metadata]
    decorator, which asks the method's generator for its next entry and
    wraps it. *)
Definition metadata_pull {F : Type} (env : Collaborators)
  (func_resume : F -> M (option Entry * F)) (func_finished : F)
  (inner : F) : M (option Item * metadata_frame F) :=
  fun w =>
    match gen_next func_resume func_finished inner w with
    | (Yielded entry, inner', w') =>
        match envelope env entry with
        | Ok it => (Ok (Some it, MetaIterating inner'), w')
        | Raise e => (Raise e, w')
        end
    | (Exhausted, _, w') => (Ok (None, MetaFinished), w')
    | (Raised e, _, w') => (Raise e, w')
    end.

(** Modelled from the spec: the [metadata] decorator is itself a lazy
    generator; it calls the method when its first element is asked for and
    attaches the envelope to every entry before yielding it. *)
Definition metadata_resume {F : Type} (env : Collaborators)
  (func_created func_finished : F) (func_resume : F -> M (option Entry * F))
  (m : metadata_frame F) : M (option Item * metadata_frame F) :=
  match m with
  | MetaCreated => metadata_pull env func_resume func_finished func_created
  | MetaIterating inner => metadata_pull env func_resume func_finished inner
  | MetaFinished => ret (None, MetaFinished)
  end.

(* ================================================================== *)
(** ** [RSS.fetch] *)
(* ================================================================== *)

(** [RSS.parse_feed]; [fetch_from_cache] calls [feedparser.parse] itself. *)
Definition parse_feed (env : Collaborators) (raw_entries : string) : M FeedParserDict :=
  emit (ParseFeed raw_entries) ;;
  lift (feedparser_parse env raw_entries).

(** The frames of the body of [fetch]: not started, suspended at
    [yield item] with the entries the loop has not reached yet and the
    counter, or finished. *)
Inductive fetch_frame : Type :=
| FetchCreated
| FetchYielding (rest : list Entry) (nentries : nat)
| FetchFinished.

(** [for item in entries: yield item; nentries += 1], then the last log
    line. *)
Definition fetch_loop (items : list Entry) (nentries : nat)
  : M (option Entry * fetch_frame) :=
  match items with
  | item :: rest => ret (Some item, FetchYielding rest nentries)
  | [] =>
      logger_info ("Total number of entries: " +:+ pretty nentries) ;;
      ret (None, FetchFinished)
  end.

(** The body of [fetch], from a frame to the next [yield]. *)
Definition fetch_resume (env : Collaborators) (f : fetch_frame)
  : M (option Entry * fetch_frame) :=
  match f with
  | FetchCreated =>
      s <- get_self ;;
      logger_info ("Looking for rss entries at feed '" +:+ url s +:+ "'") ;;
      _purge_cache_queue ;;
      raw_entries <- get_entries env (client s) ;;
      _push_cache_queue raw_entries ;;
      parsed <- parse_feed env raw_entries ;;
      _flush_cache_queue ;;
      fetch_loop (entries parsed) 0
  | FetchYielding rest nentries => fetch_loop rest (S nentries)
  | FetchFinished => ret (None, FetchFinished)
  end.

(** Calling the decorated [fetch()] only makes a generator. *)
Definition fetch : M (metadata_frame fetch_frame) := ret MetaCreated.

(** [next] on the generator that [fetch()] returned. *)
Definition fetch_next (env : Collaborators)
  : metadata_frame fetch_frame -> World
    -> next_result Item * metadata_frame fetch_frame * World :=
  gen_next (metadata_resume env FetchCreated FetchFinished (fetch_resume env))
           MetaFinished.

(* ================================================================== *)
(** ** [RSS.fetch_from_cache] *)
(* ================================================================== *)

Inductive replay_frame : Type :=
| ReplayCreated
| ReplayYielding (rest : list Entry)
| ReplayFinished.

(** [next(self.cache.retrieve())]: the first payload that [retrieve]
    yields, or [StopIteration] when it yields none. *)
Definition next_retrieve (c : Cache) : M string :=
  emit CacheRetrieve ;;
  match Cache_retrieve c with
  | payload :: _ => ret payload
  | [] => raise StopIteration
  end.

Definition replay_loop (items : list Entry) : M (option Entry * replay_frame) :=
  match items with
  | item :: rest => ret (Some item, ReplayYielding rest)
  | [] => ret (None, ReplayFinished)
  end.

(** The body of [fetch_from_cache], from a frame to the next [yield]. *)
Definition fetch_from_cache_resume (env : Collaborators) (f : replay_frame)
  : M (option Entry * replay_frame) :=
  match f with
  | ReplayCreated =>
      s <- get_self ;;
      match cache s with
      | None => raise (CacheError "cache instance was not provided")
      | Some c =>
          cache_entries <- next_retrieve c ;;
          parsed <- parse_feed env cache_entries ;;
          replay_loop (entries parsed)
      end
  | ReplayYielding rest => replay_loop rest
  | ReplayFinished => ret (None, ReplayFinished)
  end.

(** Calling the decorated [fetch_from_cache()] only makes a generator. *)
Definition fetch_from_cache : M (metadata_frame replay_frame) := ret MetaCreated.

Definition fetch_from_cache_next (env : Collaborators)
  : metadata_frame replay_frame -> World
    -> next_result Item * metadata_frame replay_frame * World :=
  gen_next (metadata_resume env ReplayCreated ReplayFinished
                            (fetch_from_cache_resume env))
           MetaFinished.

(** [RSS.has_caching] and [RSS.has_resuming] *)
Definition has_caching : bool := true.

Definition has_resuming : bool := false.

(** A whole live fetch and a whole replay: the generator is made and
    consumed with up to [fuel] calls of [next]. *)
Definition run_fetch (env : Collaborators) (fuel : nat) (w : World)
  : run (metadata_frame fetch_frame) Item :=
  consume (fetch_next env) fuel MetaCreated w.

Definition run_fetch_from_cache (env : Collaborators) (fuel : nat) (w : World)
  : run (metadata_frame replay_frame) Item :=
  consume (fetch_from_cache_next env) fuel MetaCreated w.

(** The events a computation added to the trace. *)
Definition new_effects (before after : World) : list event :=
  drop (length (effects before)) (effects after).

(* ================================================================== *)
(** ** A date parser for ISO 8601 timestamps *)
(* ================================================================== *)

Definition digit_of (c : ascii) : option Z :=
  let n := Z.of_nat (nat_of_ascii c) in
  if (48 <=? n) && (n <=? 57) then Some (n - 48) else None.

Fixpoint number_of (cs : list ascii) (acc : Z) : option Z :=
  match cs with
  | [] => Some acc
  | c :: rest =>
      match digit_of c with
      | Some d => number_of rest (acc * 10 + d)
      | None => None
      end
  end.

(** The number written with exactly [len] digits from position [start]. *)
Definition field (s : string) (start len : nat) : option Z :=
  let cs := list_ascii_of_string (substring start len s) in
  if Nat.eqb (length cs) len then number_of cs 0 else None.

Definition char_at (s : string) (i : nat) (c : ascii) : bool :=
  match String.get i s with
  | Some c' => Ascii.eqb c c'
  | None => false
  end.

(** The offset from UTC, in seconds, written from position 19 on:
    nothing or [Z] for UTC, or [+hh:mm] / [-hh:mm]. *)
Definition zone_of (s : string) : option Z :=
  let n := String.length s in
  if Nat.eqb n 19 then Some 0
  else if Nat.eqb n 20 then (if char_at s 19 "Z" then Some 0 else None)
  else if Nat.eqb n 25 && char_at s 22 ":" then
    match field s 20 2, field s 23 2 with
    | Some h, Some m =>
        if (h <? 24) && (m <? 60) then
          if char_at s 19 "+" then Some (h * 3600 + m * 60)
          else if char_at s 19 "-" then Some (- (h * 3600 + m * 60))
          else None
        else None
    | _, _ => None
    end
  else None.

(** [YYYY-MM-DDThh:mm:ss] followed by a zone; a reading without a zone is
    taken as UTC. *)
Definition iso8601 (s : string) : option datetime :=
  if char_at s 4 "-" && char_at s 7 "-" && char_at s 10 "T"
     && char_at s 13 ":" && char_at s 16 ":" then
    match field s 0 4, field s 5 2, field s 8 2,
          field s 11 2, field s 14 2, field s 17 2, zone_of s with
    | Some y, Some mo, Some d, Some h, Some mi, Some se, Some off =>
        let dt := {| year := y; month := mo; day := d;
                     hour := h; minute := mi; second := se; microsecond := 0;
                     utcoffset := off |} in
        if valid_date dt && (h <? 24) && (mi <? 60) && (se <? 60)
        then Some dt else None
    | _, _, _, _, _, _, _ => None
    end
  else None.

(* ================================================================== *)
(** ** Concrete feeds and collaborators for the scenarios *)
(* ================================================================== *)

(** A feed parser given by the documents it knows; any other payload is
    taken leniently: no entries, [bozo] set. *)
Fixpoint table_parse (table : list (string * list Entry)) (raw : string)
  : result FeedParserDict :=
  match table with
  | [] => Ok {| entries := []; bozo := true |}
  | (doc, es) :: rest =>
      if String.eqb doc raw then Ok {| entries := es; bozo := false |}
      else table_parse rest raw
  end.

(** A network given by the bodies it serves with status 200; any other URL
    cannot be reached. *)
Fixpoint table_get (table : list (string * string)) (u : string)
  : result Response :=
  match table with
  | [] => Raise ConnectionError
  | (u', body) :: rest =>
      if String.eqb u' u then Ok {| status_code := 200; text := body |}
      else table_get rest u
  end.

Definition entry_1 : Entry :=
  <["link" := VStr "http://x/1"]>
    (<["published" := VStr "2020-01-01T00:00:00Z"]> ∅).

Definition entry_2 : Entry :=
  <["link" := VStr "http://x/2"]>
    (<["published" := VStr "2020-01-02T00:00:00Z"]> ∅).

(** An entry without a [published] element. *)
Definition entry_undated : Entry :=
  <["link" := VStr "http://x/3"]> ∅.

(** An entry whose [published] element is not a date. *)
Definition entry_misdated : Entry :=
  <["link" := VStr "http://x/4"]>
    (<["published" := VStr "yesterday"]> ∅).

(** An Atom document with the two dated entries. *)
Definition atom_feed : string :=
  "<feed xmlns='http://www.w3.org/2005/Atom'>"
  +:+ "<entry><link href='http://x/1'/><published>2020-01-01T00:00:00Z</published></entry>"
  +:+ "<entry><link href='http://x/2'/><published>2020-01-02T00:00:00Z</published></entry>"
  +:+ "</feed>".

(** An Atom document whose second entry has no [published] element. *)
Definition undated_feed : string :=
  "<feed xmlns='http://www.w3.org/2005/Atom'>"
  +:+ "<entry><link href='http://x/1'/><published>2020-01-01T00:00:00Z</published></entry>"
  +:+ "<entry><link href='http://x/3'/></entry>"
  +:+ "</feed>".

(** Modelled from the spec: the feed parser (feedparser is not among the
    sources) is lenient.  It extracts the entries of a payload that is a
    feed, in the order of the feed; for a text that is not a recognisable
    feed it yields an empty sequence of entries rather than an error, and
    so it does for the empty text; it fails only for a payload that cannot
    be decoded as text at all, which a text is not.  [detect] is the
    detection and extraction of the entries of a feed. *)
Definition lenient_parse (detect : string -> option (list Entry)) (raw : string)
  : result FeedParserDict :=
  if String.eqb raw "" then Ok {| entries := []; bozo := true |}
  else
    match detect raw with
    | Some es => Ok {| entries := es; bozo := false |}
    | None => Ok {| entries := []; bozo := true |}
    end.

(** The detection given by the documents it knows. *)
Fixpoint table_detect (table : list (string * list Entry)) (raw : string)
  : option (list Entry) :=
  match table with
  | [] => None
  | (doc, es) :: rest => if String.eqb doc raw then Some es else table_detect rest raw
  end.

Definition scenario_env : Collaborators :=
  {| requests_get :=
       table_get [("http://x/feed", atom_feed);
                  ("http://x/undated", undated_feed);
                  ("http://x/empty", "")];
     feedparser_parse :=
       table_parse [(atom_feed, [entry_1; entry_2]);
                    (undated_feed, [entry_1; entry_undated])];
     dateutil_parse := iso8601 |}.

(** A network that is never reached without an exception. *)
Definition offline_env : Collaborators :=
  {| requests_get := fun _ => Raise ConnectionError;
     feedparser_parse := feedparser_parse scenario_env;
     dateutil_parse := iso8601 |}.

(** A fresh world around a backend made by [RSS(url, cache=cache)]. *)
Definition world_of (u : string) (c : option Cache) : World :=
  {| self := RSS_init u None c; effects := [] |}.

(** A cache that holds the payload of an earlier run. *)
Definition old_cache : Cache := {| committed := [atom_feed] |}.

Definition empty_cache : Cache := {| committed := [] |}.

(* ================================================================== *)
(** ** Derived forms used by the proofs *)
(* ================================================================== *)

Definition add_effects (w : World) (evs : list event) : World :=
  {| self := self w; effects := effects w ++ evs |}.

Definition is_log (e : event) : bool :=
  match e with
  | LogInfo _ => true
  | _ => false
  end.

(** The result of [get_entries], apart from its trace. *)
Definition fetched (env : Collaborators) (c : RSSClient) : result string :=
  match requests_get env (client_url c) with
  | Ok req =>
      match raise_for_status req with
      | Ok _ => Ok (text req)
      | Raise e => Raise e
      end
  | Raise e => Raise e
  end.

(** The envelopes of the entries up to the first one whose metadata cannot
    be extracted, and the exception that one sends out of the generator. *)
Fixpoint wrap_all (env : Collaborators) (es : list Entry) : list Item * option exn :=
  match es with
  | [] => ([], None)
  | e :: rest =>
      match envelope env e with
      | Ok it => (it :: fst (wrap_all env rest), snd (wrap_all env rest))
      | Raise x => ([], Some (escaping x))
      end
  end.

Definition ending_of (failure : option exn) : ending :=
  match failure with
  | Some x => Failed x
  | None => Completed
  end.

(** The backend object after purge, push of [raw] and flush. *)
Definition flushed (s : RSS) (raw : string) : RSS :=
  match cache s with
  | Some c => with_cache_queue (with_cache (with_cache_queue s [raw]) (Cache_store c [raw])) []
  | None => with_cache_queue (with_cache_queue s [raw]) []
  end.

Definition opening_log (s : RSS) : event :=
  LogInfo ("Looking for rss entries at feed '" +:+ url s +:+ "'").

Definition closing_log (nentries : nat) : event :=
  LogInfo ("Total number of entries: " +:+ pretty nentries).

(** The events of the body of [fetch] up to the request, up to the parse
    and up to the flush. *)
Definition request_events (s : RSS) : list event :=
  [opening_log s; PurgeQueue; HttpGet (client_url (client s))].

Definition parse_events (s : RSS) (raw : string) : list event :=
  request_events s ++ [PushQueue raw; ParseFeed raw].

Definition flush_events (s : RSS) (raw : string) : list event :=
  parse_events s raw ++ [FlushQueue].

(** Whether the body of [fetch] has been entered in a frame of the
    decorated generator. *)
Definition body_started (f : metadata_frame fetch_frame) : bool :=
  match f with
  | MetaCreated => false
  | MetaIterating FetchCreated => false
  | _ => true
  end.

(** What one [next] of a decorated generator gives when the body is about
    to loop over [es]: exhaustion after the lines [closing count], or the
    envelope of the first entry. *)
Definition deliver {F : Type} (env : Collaborators)
  (yielding : list Entry -> nat -> F) (closing : nat -> list event)
  (es : list Entry) (count : nat) (w : World)
  : next_result Item * metadata_frame F * World :=
  match es with
  | [] => (Exhausted, MetaFinished, add_effects w (closing count))
  | e :: rest =>
      match envelope env e with
      | Ok it => (Yielded it, MetaIterating (yielding rest count), w)
      | Raise x => (Raised (escaping x), MetaFinished, w)
      end
  end.

(** What consuming such a generator to its end gives. *)
Definition delivered {F : Type} (env : Collaborators)
  (closing : nat -> list event) (es : list Entry) (count : nat) (w : World)
  : run (metadata_frame F) Item :=
  {| produced := fst (wrap_all env es);
     ended := ending_of (snd (wrap_all env es));
     frame_after := MetaFinished;
     world_after :=
       match snd (wrap_all env es) with
       | Some _ => w
       | None => add_effects w (closing (count + length es)%nat)
       end |}.

(** The first [next] of a live fetch, case by case. *)
Definition first_fetch_next (env : Collaborators) (w : World)
  : next_result Item * metadata_frame fetch_frame * World :=
  let s := self w in
  match fetched env (client s) with
  | Raise e =>
      (Raised (escaping e), MetaFinished,
       {| self := with_cache_queue s []; effects := effects w ++ request_events s |})
  | Ok raw =>
      match feedparser_parse env raw with
      | Raise e =>
          (Raised (escaping e), MetaFinished,
           {| self := with_cache_queue s [raw];
              effects := effects w ++ parse_events s raw |})
      | Ok parsed =>
          deliver env FetchYielding (fun n => [closing_log n]) (entries parsed) 0
            {| self := flushed s raw; effects := effects w ++ flush_events s raw |}
      end
  end.

(** The first [next] of a replay, case by case. *)
Definition first_replay_next (env : Collaborators) (w : World)
  : next_result Item * metadata_frame replay_frame * World :=
  match cache (self w) with
  | None => (Raised (CacheError "cache instance was not provided"), MetaFinished, w)
  | Some c =>
      match Cache_retrieve c with
      | [] =>
          (Raised (RuntimeError "generator raised StopIteration"), MetaFinished,
           add_effects w [CacheRetrieve])
      | payload :: _ =>
          match feedparser_parse env payload with
          | Raise e =>
              (Raised (escaping e), MetaFinished,
               add_effects w [CacheRetrieve; ParseFeed payload])
          | Ok parsed =>
              deliver env (fun es _ => ReplayYielding es) (fun _ => []) (entries parsed) 0
                (add_effects w [CacheRetrieve; ParseFeed payload])
          end
      end
  end.

(* ================================================================== *)
(** ** The order of dates *)
(* ================================================================== *)

(** The time-of-day fields of a [datetime] are within their ranges. *)
Definition valid_time (dt : datetime) : bool :=
  (0 <=? hour dt) && (hour dt <? 24)
  && (0 <=? minute dt) && (minute dt <? 60)
  && (0 <=? second dt) && (second dt <? 60)
  && (0 <=? microsecond dt) && (microsecond dt <? 1000000).

(** The year and the offset from UTC are within the ranges of Python's
    [datetime]: a year up to 9999, an offset of less than a day. *)
Definition valid_range (dt : datetime) : bool :=
  (year dt <=? 9999) && (-86400 <? utcoffset dt) && (utcoffset dt <? 86400).

(** [a] reads earlier than [b]: the fields compared from the year down to
    the microsecond. *)
Definition earlier (a b : datetime) : Prop :=
  year a < year b
  \/ (year a = year b
      /\ (month a < month b
          \/ (month a = month b
              /\ (day a < day b
                  \/ (day a = day b
                      /\ (hour a < hour b
                          \/ (hour a = hour b
                              /\ (minute a < minute b
                                  \/ (minute a = minute b
                                      /\ (second a < second b
                                          \/ (second a = second b
                                              /\ microsecond a < microsecond b))))))))))).

(* ================================================================== *)
(** ** [RSSCommand] *)
(* ================================================================== *)

(** The options that the base class of the command parses from the
    command line, as [RSSCommand] reads them from [parsed_args]; the output
    file is kept in the command itself. *)
Record ParsedArgs : Type := {
  args_url : string;
  args_tag : option string;
  no_cache : bool;
  cache_path : option string;
  clean_cache : bool;
  fetch_cache : bool
}.

(** [not path] for an optional text: [None] and the empty text are false. *)
Definition unset (path : option string) : bool :=
  match path with
  | None => true
  | Some p => String.eqb p ""
  end.

(** [s.startswith('/')] *)
Definition starts_with_sep (s : string) : bool :=
  match s with
  | String c _ => Ascii.eqb c "/"
  | EmptyString => false
  end.

(** [s.endswith('/')] *)
Fixpoint ends_with_sep (s : string) : bool :=
  match s with
  | EmptyString => false
  | String c EmptyString => Ascii.eqb c "/"
  | String _ rest => ends_with_sep rest
  end.

(** [s.rstrip('/')] *)
Fixpoint rstrip_sep (s : string) : string :=
  match s with
  | EmptyString => EmptyString
  | String c rest =>
      match rstrip_sep rest with
      | EmptyString => if Ascii.eqb c "/" then EmptyString else String c EmptyString
      | stripped => String c stripped
      end
  end.

(** [os.path.join(a, b)] on a POSIX system: a second part that starts
    with the separator replaces the first; otherwise it is appended, after
    a separator unless the first part is empty or ends with one. *)
Definition path_join (a b : string) : string :=
  if starts_with_sep b then b
  else if String.eqb a "" || ends_with_sep a then a +:+ b
  else a +:+ "/" +:+ b.

(** [os.path.expanduser('~/.perceval/cache/')] on a POSIX system, for a
    user whose home directory is [userhome]. *)
Definition default_base_path (userhome : string) : string :=
  rstrip_sep userhome +:+ "/.perceval/cache/".

(** The [cache_path] that [RSSCommand.__init__] computes. *)
Definition command_cache_path (userhome : string) (args : ParsedArgs) : string :=
  let base_path :=
    if unset (cache_path args) then default_base_path userhome
    else match cache_path args with
         | Some p => p
         | None => ""
         end in
  path_join base_path (args_url args).

(** The constructor of the cache and the methods of it that only the
    command calls, taken as parameters (perceval.cache is not among the
    sources). *)
Record CacheClass : Type := {
  Cache_new : string -> Cache;
  Cache_clean : Cache -> Cache;
  Cache_backup : Cache -> Cache;
  Cache_recover : Cache -> Cache
}.

(** The calls that the command makes on the cache, in their order. *)
Inductive cache_call : Type :=
| CalledNew (dirpath : string)
| CalledClean
| CalledBackup
| CalledRecover.

(** An instance of [RSSCommand]: its attributes, with the text written to
    [outfile] so far, write by write, the backend in its world, and the
    calls made on the cache. *)
Record RSSCommand : Type := {
  parsed_args : ParsedArgs;
  command_url : string;
  command_tag : option string;
  outfile : list string;
  backend : World;
  cache_calls : list cache_call
}.

(** [RSSCommand.__init__], writing to an output that holds [out]. *)
Definition RSSCommand_init (cls : CacheClass) (userhome : string)
  (args : ParsedArgs) (out : list string) : RSSCommand :=
  let made :=
    if negb (no_cache args) then
      let dirpath := command_cache_path userhome args in
      let c := Cache_new cls dirpath in
      if clean_cache args
      then (Some (Cache_clean cls c), [CalledNew dirpath; CalledClean])
      else (Some (Cache_backup cls c), [CalledNew dirpath; CalledBackup])
    else (None, []) in
  {| parsed_args := args;
     command_url := args_url args;
     command_tag := args_tag args;
     outfile := out;
     backend := {| self := RSS_init (args_url args) (args_tag args) (fst made);
                   effects := [] |};
     cache_calls := snd made |}.

(** What [run] needs from outside the repository: [json.dumps] with its
    options, [str] of an exception, [str(e.response.json())] of an HTTP
    error and [outfile.write], which is given what the file holds and the
    text to write; each of them but [str] may raise. *)
Record Formatting : Type := {
  json_dumps : Item -> result string;
  exn_str : exn -> string;
  response_json : exn -> result string;
  file_write : list string -> string -> result unit
}.

Definition newline : string := String "010" EmptyString.

(** The loop of [run]: every item is dumped and written, followed by a
    newline, until the generator is exhausted or something raises, a write
    included; a write that raises adds nothing to the file. *)
Fixpoint write_items {F : Type} (fmt : Formatting)
  (next : F -> World -> next_result Item * F * World)
  (fuel : nat) (f : F) (w : World) (out : list string)
  : ending * World * list string :=
  match fuel with
  | O => (Pending, w, out)
  | S k =>
      match next f w with
      | (Yielded item, f', w') =>
          match json_dumps fmt item with
          | Ok obj =>
              match file_write fmt out obj with
              | Ok _ =>
                  match file_write fmt (out ++ [obj]) newline with
                  | Ok _ => write_items fmt next k f' w' (out ++ [obj; newline])
                  | Raise e => (Failed e, w', out ++ [obj])
                  end
              | Raise e => (Failed e, w', out)
              end
          | Raise e => (Failed e, w', out)
          end
      | (Exhausted, _, w') => (Completed, w', out)
      | (Raised e, _, w') => (Failed e, w', out)
      end
  end.

(** The exceptions caught by [except requests.exceptions.HTTPError] and,
    after it, by [except IOError]: every exception of requests is an
    [IOError], and so is the failure of an operation on a file. *)
Definition is_HTTPError (e : exn) : bool :=
  match e with
  | HTTPError _ => true
  | _ => false
  end.

Definition is_IOError (e : exn) : bool :=
  match e with
  | HTTPError _ | ConnectionError | IOError _ => true
  | _ => false
  end.

(** How a call of [run] ends: it returns, it is cut short by the fuel, it
    raises one of the two exceptions its handlers make, or an exception
    raised inside a handler escapes. *)
Inductive command_end : Type :=
| Returned
| Unfinished
| RaisedHTTPError (msg : string)
| RaisedRuntimeError (msg : string)
| Escaped (e : exn).

Definition with_run (cmd : RSSCommand) (w : World) (out : list string)
  (calls : list cache_call) : RSSCommand :=
  {| parsed_args := parsed_args cmd; command_url := command_url cmd;
     command_tag := command_tag cmd; outfile := out; backend := w;
     cache_calls := calls |}.

(** [RSSCommand.run] *)
Definition RSSCommand_run (env : Collaborators) (cls : CacheClass) (fmt : Formatting)
  (fuel : nat) (cmd : RSSCommand) : command_end * RSSCommand :=
  let looped :=
    if fetch_cache (parsed_args cmd)
    then write_items fmt (fetch_from_cache_next env) fuel MetaCreated
           (backend cmd) (outfile cmd)
    else write_items fmt (fetch_next env) fuel MetaCreated
           (backend cmd) (outfile cmd) in
  let w := snd (fst looped) in
  let out := snd looped in
  match fst (fst looped) with
  | Completed => (Returned, with_run cmd w out (cache_calls cmd))
  | Pending => (Unfinished, with_run cmd w out (cache_calls cmd))
  | Failed e =>
      if is_HTTPError e then
        match response_json fmt e with
        | Ok msg => (RaisedHTTPError msg, with_run cmd w out (cache_calls cmd))
        | Raise e' => (Escaped e', with_run cmd w out (cache_calls cmd))
        end
      else if is_IOError e then
        (RaisedRuntimeError (exn_str fmt e), with_run cmd w out (cache_calls cmd))
      else
        match cache (self w) with
        | Some c =>
            (RaisedRuntimeError (exn_str fmt e),
             with_run cmd
               {| self := with_cache (self w) (Cache_recover cls c); effects := effects w |}
               out (cache_calls cmd ++ [CalledRecover]))
        | None =>
            (RaisedRuntimeError (exn_str fmt e), with_run cmd w out (cache_calls cmd))
        end
  end.

(** The lines that [run] writes for the dumped items [objs]. *)
Definition written (objs : list string) : list string :=
  flat_map (fun obj => [obj; newline]) objs.

(** A cache class, a formatting and command lines for the scenarios: the
    dump of a record is stood for by its identifier and every write
    succeeds. *)
Definition scenario_cache_class : CacheClass :=
  {| Cache_new := fun _ => old_cache;
     Cache_clean := fun _ => empty_cache;
     Cache_backup := fun c => c;
     Cache_recover := fun _ => old_cache |}.

Definition scenario_formatting : Formatting :=
  {| json_dumps := fun it => Ok (item_id it);
     exn_str := fun e =>
       match e with
       | KeyError key => "'" +:+ key +:+ "'"
       | CacheError cause => cause
       | _ => "error"
       end;
     response_json := fun _ => Ok "{'detail': 'not found'}";
     file_write := fun _ _ => Ok tt |}.

Definition scenario_args (u : string) (without_cache replay : bool) : ParsedArgs :=
  {| args_url := u; args_tag := None; no_cache := without_cache;
     cache_path := None; clean_cache := false; fetch_cache := replay |}.

(** A server that answers every request with the status 404. *)
Definition missing_env : Collaborators :=
  {| requests_get := fun _ => Ok {| status_code := 404; text := "not found" |};
     feedparser_parse := feedparser_parse scenario_env;
     dateutil_parse := iso8601 |}.

(* ================================================================== *)
(** * Properties *)
(* ================================================================== *)

(** ** The monad and the trace *)

Ltac run_effects :=
  repeat (unfold bind, ret, raise, lift, emit, get_self, set_cache,
            set_cache_queue, logger_info, add_effects;
          cbn [self effects cache cache_queue client url origin tag
               with_cache_queue with_cache fst snd]);
  rewrite <- ?app_assoc; cbn [app].

Lemma escaping_idem (e : exn) : escaping (escaping e) = escaping e.
Proof. destruct e; reflexivity. Qed.

Lemma add_effects_nil (w : World) : add_effects w [] = w.
Proof. destruct w as [s evs]. unfold add_effects. simpl. now rewrite app_nil_r. Qed.

Lemma add_effects_add (w : World) (a b : list event) :
  add_effects (add_effects w a) b = add_effects w (a ++ b).
Proof. unfold add_effects. simpl. now rewrite app_assoc. Qed.

Lemma new_effects_app (w w' : World) (tail : list event) :
  effects w' = effects w ++ tail -> new_effects w w' = tail.
Proof. intros H. unfold new_effects. rewrite H. apply drop_app_length. Qed.

Lemma new_effects_add (w : World) (tail : list event) :
  new_effects w (add_effects w tail) = tail.
Proof. now apply new_effects_app. Qed.

Lemma get_entries_fetched (env : Collaborators) (c : RSSClient) (w : World) :
  get_entries env c w = (fetched env c, add_effects w [HttpGet (client_url c)]).
Proof.
  unfold get_entries, fetched, bind, emit, lift, ret, add_effects.
  destruct (requests_get env (client_url c)) as [req|e]; [|reflexivity].
  destruct (raise_for_status req) as [[]|e]; reflexivity.
Qed.

(** ** One step of the decorated generators *)

Lemma fetch_next_created (env : Collaborators) (w : World) :
  fetch_next env MetaCreated w = first_fetch_next env w.
Proof.
  unfold fetch_next, first_fetch_next, gen_next, metadata_resume, metadata_pull.
  unfold gen_next, fetch_resume, _purge_cache_queue, _push_cache_queue,
    _flush_cache_queue, parse_feed.
  unfold bind at 1. unfold get_self at 1.
  unfold bind at 1. unfold logger_info, emit at 1.
  unfold bind at 1. unfold bind at 1. unfold emit at 1. unfold set_cache_queue at 1.
  cbn [self effects].
  unfold bind at 1.
  rewrite get_entries_fetched.
  destruct (fetched env (client (self w))) as [raw|e]; run_effects.
  2:{ now rewrite escaping_idem. }
  unfold flush_events, parse_events, request_events, opening_log, flushed.
  destruct (feedparser_parse env raw) as [parsed|e]; run_effects.
  2:{ now rewrite escaping_idem. }
  destruct (cache (self w)) as [c|]; run_effects;
    unfold fetch_loop, deliver, closing_log;
    (destruct (entries parsed) as [|e rest]; run_effects;
     [reflexivity | destruct (envelope env e); now rewrite ?escaping_idem]).
Qed.

Lemma fetch_next_yielding (env : Collaborators) (es : list Entry) (n : nat) (w : World) :
  fetch_next env (MetaIterating (FetchYielding es n)) w
  = deliver env FetchYielding (fun k => [closing_log k]) es (S n) w.
Proof.
  unfold fetch_next, gen_next, metadata_resume, metadata_pull, gen_next.
  unfold fetch_resume, fetch_loop, deliver, closing_log.
  destruct es as [|e rest]; run_effects; [reflexivity|].
  destruct (envelope env e); now rewrite ?escaping_idem.
Qed.

Lemma fetch_next_finished (env : Collaborators) (w : World) :
  fetch_next env MetaFinished w = (Exhausted, MetaFinished, w)
  /\ fetch_next env (MetaIterating FetchFinished) w = (Exhausted, MetaFinished, w).
Proof. split; reflexivity. Qed.

Lemma replay_next_created (env : Collaborators) (w : World) :
  fetch_from_cache_next env MetaCreated w = first_replay_next env w
  /\ fetch_from_cache_next env (MetaIterating ReplayCreated) w = first_replay_next env w.
Proof.
  split;
    unfold fetch_from_cache_next, first_replay_next, gen_next, metadata_resume,
      metadata_pull, gen_next, fetch_from_cache_resume;
    (unfold bind at 1; unfold get_self at 1);
    (destruct (cache (self w)) as [c|]; [|reflexivity]);
    unfold next_retrieve, parse_feed;
    (destruct (Cache_retrieve c) as [|payload rest]; run_effects; [reflexivity|]);
    (destruct (feedparser_parse env payload) as [parsed|e]; run_effects;
     [|now rewrite escaping_idem]);
    unfold replay_loop, deliver;
    (destruct (entries parsed) as [|e rest']; run_effects; [reflexivity|]);
    destruct (envelope env e); reflexivity.
Qed.

Lemma replay_next_yielding (env : Collaborators) (es : list Entry) (n : nat) (w : World) :
  fetch_from_cache_next env (MetaIterating (ReplayYielding es)) w
  = deliver env (fun es' _ => ReplayYielding es') (fun _ => []) es (S n) w.
Proof.
  unfold fetch_from_cache_next, gen_next, metadata_resume, metadata_pull, gen_next.
  unfold fetch_from_cache_resume, replay_loop, deliver.
  destruct es as [|e rest]; unfold ret.
  - now rewrite add_effects_nil.
  - destruct (envelope env e); reflexivity.
Qed.

Lemma replay_next_finished (env : Collaborators) (w : World) :
  fetch_from_cache_next env MetaFinished w = (Exhausted, MetaFinished, w)
  /\ fetch_from_cache_next env (MetaIterating ReplayFinished) w = (Exhausted, MetaFinished, w).
Proof. split; reflexivity. Qed.

(** ** Consuming a generator that delivers the entries of a list *)

Section Delivery.

Context {F : Type}.
Variable env : Collaborators.
Variable next : metadata_frame F -> World -> next_result Item * metadata_frame F * World.
Variable yielding : list Entry -> nat -> F.
Variable closing : nat -> list event.

Hypothesis next_yielding : forall es n w,
  next (MetaIterating (yielding es n)) w = deliver env yielding closing es (S n) w.

Lemma consume_deliver (es : list Entry) :
  forall (count k : nat) (f : metadata_frame F) (w0 w : World),
    next f w0 = deliver env yielding closing es count w ->
    (length es <= k)%nat ->
    consume next (S k) f w0 = delivered env closing es count w.
Proof.
  induction es as [|e rest IH]; intros count k f w0 w Hf Hk.
  - cbn [consume]. rewrite Hf. unfold deliver, delivered.
    cbn [wrap_all fst snd ending_of length]. now rewrite Nat.add_0_r.
  - cbn [consume]. rewrite Hf. unfold deliver, delivered. cbn [wrap_all length].
    destruct (envelope env e) as [it|x]; [|reflexivity].
    cbn [length] in Hk. destruct k as [|k]; [lia|].
    rewrite (IH (S count) k _ w w); [|apply next_yielding|lia].
    unfold delivered. cbn [produced ended frame_after world_after fst snd].
    now rewrite Nat.add_succ_r.
Qed.

(** With any amount of fuel, the loop only ever adds the closing lines to
    the trace, leaves the backend object alone and hands out a prefix of
    the envelopes. *)
Lemma consume_deliver_any (k : nat) :
  forall (es : list Entry) (count : nat) (f : metadata_frame F) (w0 w : World),
    next f w0 = deliver env yielding closing es count w ->
    let r := consume next (S k) f w0 in
    self (world_after r) = self w
    /\ (effects (world_after r) = effects w
        \/ effects (world_after r) = effects w ++ closing (count + length es)%nat)
    /\ (exists later, fst (wrap_all env es) = produced r ++ later)
    /\ (ended r = Pending \/ ended r = ending_of (snd (wrap_all env es))).
Proof.
  induction k as [|k IH]; intros es count f w0 w Hf; cbn zeta;
    cbn [consume]; rewrite Hf; (destruct es as [|e rest]; unfold deliver;
    [ cbn [produced ended world_after wrap_all fst snd ending_of length
           add_effects self effects];
      rewrite Nat.add_0_r; repeat split; eauto
    | cbn [wrap_all length]; destruct (envelope env e) as [it|x];
      [ | cbn [produced ended world_after fst snd ending_of]; repeat split; eauto ] ]).
  - cbn [produced ended world_after fst snd]. repeat split; eauto.
  - specialize (IH rest (S count) _ w w (next_yielding rest count w)).
    cbn zeta in IH. destruct IH as (Hs & He & (later & Hl) & Hend).
    cbn [produced ended world_after fst snd].
    rewrite Nat.add_succ_r. repeat split; auto.
    exists later. now rewrite Hl.
Qed.

End Delivery.

(** ** Whole live fetches *)

Lemma fetch_next_parsed (env : Collaborators) (w : World)
  (raw : string) (parsed : FeedParserDict) :
  fetched env (client (self w)) = Ok raw ->
  feedparser_parse env raw = Ok parsed ->
  fetch_next env MetaCreated w
  = deliver env FetchYielding (fun n => [closing_log n]) (entries parsed) 0
      {| self := flushed (self w) raw; effects := effects w ++ flush_events (self w) raw |}.
Proof.
  intros H1 H2. rewrite fetch_next_created. unfold first_fetch_next. now rewrite H1, H2.
Qed.

Lemma run_fetch_request_fails (env : Collaborators) (k : nat) (w : World) (e : exn) :
  fetched env (client (self w)) = Raise e ->
  run_fetch env (S k) w
  = {| produced := []; ended := Failed (escaping e); frame_after := MetaFinished;
       world_after := {| self := with_cache_queue (self w) [];
                         effects := effects w ++ request_events (self w) |} |}.
Proof.
  intros H. unfold run_fetch. cbn [consume].
  rewrite fetch_next_created. unfold first_fetch_next. now rewrite H.
Qed.

Lemma run_fetch_parse_fails (env : Collaborators) (k : nat) (w : World)
  (raw : string) (e : exn) :
  fetched env (client (self w)) = Ok raw ->
  feedparser_parse env raw = Raise e ->
  run_fetch env (S k) w
  = {| produced := []; ended := Failed (escaping e); frame_after := MetaFinished;
       world_after := {| self := with_cache_queue (self w) [raw];
                         effects := effects w ++ parse_events (self w) raw |} |}.
Proof.
  intros H1 H2. unfold run_fetch. cbn [consume].
  rewrite fetch_next_created. unfold first_fetch_next. now rewrite H1, H2.
Qed.

Lemma run_fetch_parsed (env : Collaborators) (k : nat) (w : World)
  (raw : string) (parsed : FeedParserDict) :
  fetched env (client (self w)) = Ok raw ->
  feedparser_parse env raw = Ok parsed ->
  (length (entries parsed) <= k)%nat ->
  run_fetch env (S k) w
  = delivered env (fun n => [closing_log n]) (entries parsed) 0
      {| self := flushed (self w) raw; effects := effects w ++ flush_events (self w) raw |}.
Proof.
  intros H1 H2 Hk. unfold run_fetch.
  apply (consume_deliver env (fetch_next env) FetchYielding (fun n => [closing_log n])
           (fetch_next_yielding env)); [now apply fetch_next_parsed|exact Hk].
Qed.

Lemma run_fetch_parsed_any (env : Collaborators) (k : nat) (w : World)
  (raw : string) (parsed : FeedParserDict) :
  fetched env (client (self w)) = Ok raw ->
  feedparser_parse env raw = Ok parsed ->
  let r := run_fetch env (S k) w in
  self (world_after r) = flushed (self w) raw
  /\ (effects (world_after r) = effects w ++ flush_events (self w) raw
      \/ effects (world_after r)
         = effects w ++ flush_events (self w) raw
             ++ [closing_log (length (entries parsed))])
  /\ (exists later, fst (wrap_all env (entries parsed)) = produced r ++ later)
  /\ (ended r = Pending \/ ended r = ending_of (snd (wrap_all env (entries parsed)))).
Proof.
  intros H1 H2. cbn zeta. unfold run_fetch.
  pose proof (consume_deliver_any env (fetch_next env) FetchYielding
                (fun n => [closing_log n]) (fetch_next_yielding env) k
                (entries parsed) 0 MetaCreated w _
                (fetch_next_parsed env w raw parsed H1 H2)) as H.
  cbn zeta in H. cbn [self effects] in H. rewrite <- app_assoc in H. exact H.
Qed.

(** The events of a live fetch with any amount of fuel: nothing, or the
    events of the first [next], followed at most by the closing line. *)
Lemma run_fetch_effects (env : Collaborators) (fuel : nat) (w : World) :
  let evs := new_effects w (world_after (run_fetch env fuel w)) in
  let s := self w in
  evs = []
  \/ (exists e, fetched env (client s) = Raise e /\ evs = request_events s)
  \/ (exists raw e, fetched env (client s) = Ok raw
                    /\ feedparser_parse env raw = Raise e /\ evs = parse_events s raw)
  \/ (exists raw parsed tail,
        fetched env (client s) = Ok raw /\ feedparser_parse env raw = Ok parsed
        /\ evs = flush_events s raw ++ tail /\ forallb is_log tail = true).
Proof.
  cbn zeta. destruct fuel as [|k].
  - left. unfold run_fetch. cbn [consume world_after]. unfold new_effects. apply drop_all.
  - right. destruct (fetched env (client (self w))) as [raw|e] eqn:H1.
    + destruct (feedparser_parse env raw) as [parsed|e] eqn:H2.
      * right. right. exists raw, parsed.
        destruct (run_fetch_parsed_any env k w raw parsed H1 H2) as (_ & He & _).
        destruct He as [He|He].
        -- exists []. rewrite app_nil_r. repeat split; auto. now apply new_effects_app.
        -- exists [closing_log (length (entries parsed))]. repeat split; auto.
           now apply new_effects_app.
      * right. left. exists raw, e. rewrite (run_fetch_parse_fails env k w raw e H1 H2).
        repeat split; auto. now apply new_effects_app.
    + left. exists e. rewrite (run_fetch_request_fails env k w e H1).
      split; auto. now apply new_effects_app.
Qed.

Lemma wrap_all_length (env : Collaborators) (es : list Entry) :
  snd (wrap_all env es) = None -> length (fst (wrap_all env es)) = length es.
Proof.
  induction es as [|e rest IH]; cbn [wrap_all]; [reflexivity|].
  destruct (envelope env e); cbn [fst snd length]; [|discriminate].
  intros H. now rewrite IH.
Qed.

Lemma wrap_all_stops (env : Collaborators) (good : list Entry) (bad : Entry)
  (rest : list Entry) (x : exn) :
  snd (wrap_all env good) = None ->
  envelope env bad = Raise x ->
  wrap_all env (good ++ bad :: rest) = (fst (wrap_all env good), Some (escaping x)).
Proof.
  intros Hg Hb. induction good as [|e more IH]; cbn [wrap_all app].
  - now rewrite Hb.
  - cbn [wrap_all] in Hg. destruct (envelope env e); cbn [fst snd] in *; [|discriminate].
    now rewrite IH.
Qed.

Lemma wrap_all_category (env : Collaborators) (es : list Entry) (it : Item) :
  In it (fst (wrap_all env es)) -> category it = "entry"%string.
Proof.
  induction es as [|e rest IH]; cbn [wrap_all]; [intros []|].
  unfold envelope at 1.
  destruct (metadata_id e); [|intros []].
  destruct (metadata_updated_on env e); [|intros []].
  cbn [fst In]. intros [<-|H]; [reflexivity|auto].
Qed.

(** ** The calendar: Python's ordinals count days *)

Lemma days_before_year_succ (y : Z) :
  days_before_year (y + 1) = days_before_year y + year_length y.
Proof.
  unfold days_before_year, year_length, is_leap.
  replace (y + 1 - 1) with y by lia. cbn zeta.
  destruct (Z.eqb_spec (y mod 4) 0) as [H4|H4];
    destruct (Z.eqb_spec (y mod 100) 0) as [H100|H100];
    destruct (Z.eqb_spec (y mod 400) 0) as [H400|H400];
    cbn [andb orb negb];
    revert H4 H100 H400; Z.div_mod_to_equations; lia.
Qed.

Lemma days_of_years_spec (n : nat) :
  forall a : Z, days_of_years a n = days_before_year (a + Z.of_nat n) - days_before_year a.
Proof.
  induction n as [|n IH]; intros a.
  - cbn [days_of_years]. replace (a + Z.of_nat 0) with a by lia. lia.
  - cbn [days_of_years]. rewrite IH, days_before_year_succ.
    replace (a + 1 + Z.of_nat n) with (a + Z.of_nat (S n)) by lia. lia.
Qed.

Lemma days_of_months_spec (y m : Z) :
  1 <= m <= 12 ->
  days_of_months y 1 (Z.to_nat (m - 1)) = days_before_month y m.
Proof.
  intros Hm.
  assert (H : m = 1 \/ m = 2 \/ m = 3 \/ m = 4 \/ m = 5 \/ m = 6 \/ m = 7 \/ m = 8
              \/ m = 9 \/ m = 10 \/ m = 11 \/ m = 12) by lia.
  repeat (destruct H as [->|H]); try subst m;
    match goal with
    | |- context [Z.to_nat ?e] =>
        let n := eval vm_compute in (Z.to_nat e) in change (Z.to_nat e) with n
    end;
    cbn [days_of_months];
    unfold days_before_month, days_in_month;
    generalize (is_leap y); intros []; vm_compute; reflexivity.
Qed.

Lemma ymd2ord_counts (y m d : Z) :
  1 <= y -> 1 <= m <= 12 ->
  ymd2ord y m d = days_since_year1 y m d + 1.
Proof.
  intros Hy Hm. unfold ymd2ord, days_since_year1.
  rewrite days_of_years_spec, days_of_months_spec by assumption.
  replace (1 + Z.of_nat (Z.to_nat (y - 1))) with y by lia.
  change (days_before_year 1) with 0. lia.
Qed.

(** On every date of the calendar, the microseconds that [timestamp()]
    divides are the microseconds elapsed since 1970-01-01T00:00:00Z, and
    [timestamp()] is the float nearest to the seconds elapsed. *)
Lemma datetime_sub_us_counts (dt : datetime) :
  valid_date dt = true -> datetime_sub_us dt EPOCH = unix_microseconds dt.
Proof.
  unfold valid_date. rewrite !andb_true_iff, !Z.leb_le.
  intros ((((Hy & Hm1) & Hm2) & Hd1) & Hd2).
  unfold unix_microseconds, unix_whole_seconds, datetime_sub_us, toordinal, seconds_of_day.
  rewrite (ymd2ord_counts (year dt) (month dt) (day dt)) by lia.
  rewrite (ymd2ord_counts (year EPOCH) (month EPOCH) (day EPOCH)) by (cbn; lia).
  cbn [EPOCH year month day hour minute second microsecond utcoffset].
  cbn zeta. lia.
Qed.

Lemma timestamp_unix_seconds (dt : datetime) :
  valid_date dt = true -> timestamp dt = unix_seconds dt.
Proof.
  intros Hv. unfold timestamp, unix_seconds. now rewrite datetime_sub_us_counts.
Qed.

(** ** Floats: a whole number below 2^53 is kept as it is *)

Lemma round_half_even_exact (q d : Z) : 0 < d -> round_half_even (q * d) d = q.
Proof.
  intros Hd. unfold round_half_even.
  rewrite Z.div_mul by lia. rewrite Z.mod_mul by lia.
  cbn zeta. destruct (Z.ltb_spec (2 * 0) d); [reflexivity|lia].
Qed.

Lemma ulp_exponent_small (k d : Z) :
  0 < d -> 0 < k < 2 ^ 53 -> ulp_exponent (k * d) d <= 0.
Proof.
  intros Hd Hk. unfold ulp_exponent. cbn zeta.
  set (e0 := Z.log2 (k * d) - Z.log2 d - 52).
  apply Z.max_lub; [|lia].
  destruct (Z.le_gt_cases e0 0) as [Hle|Hgt].
  { destruct (_ <? _); lia. }
  assert (Hs : scaled_num (k * d) e0 / scaled_den d e0 < 2 ^ 52).
  { unfold scaled_num, scaled_den. destruct (Z.leb_spec 0 e0); [|lia].
    rewrite (Z.mul_comm k d). rewrite Z.div_mul_cancel_l by (try apply Z.pow_nonzero; lia).
    assert (H2 : 2 ^ 1 <= 2 ^ e0) by (apply Z.pow_le_mono_r; lia).
    change (2 ^ 1) with 2 in H2.
    apply Z.div_lt_upper_bound; [lia|].
    change (2 ^ 52) with 4503599627370496.
    change (2 ^ 53) with 9007199254740992 in Hk. nia. }
  destruct (Z.ltb_spec (scaled_num (k * d) e0 / scaled_den d e0) (2 ^ 52)); [|lia].
  destruct (Z.le_gt_cases e0 1) as [H1|H1]; [lia|]. exfalso.
  assert (Hkd : 0 < k * d) by nia.
  pose proof (Z.log2_spec (k * d) Hkd) as [Ha _].
  pose proof (Z.log2_spec d Hd) as [_ Hb].
  pose proof (Z.log2_nonneg d) as Hld.
  assert (Hpow : 2 ^ (Z.log2 d) * 2 ^ 54 <= 2 ^ (Z.log2 (k * d))).
  { rewrite <- Z.pow_add_r by lia. apply Z.pow_le_mono_r; lia. }
  rewrite Z.pow_succ_r in Hb by lia.
  assert (Hp : 0 < 2 ^ Z.log2 d) by (apply Z.pow_pos_nonneg; lia).
  change (2 ^ 54) with 18014398509481984 in Hpow.
  change (2 ^ 53) with 9007199254740992 in Hk. nia.
Qed.

Lemma Qred_whole (k : Z) : Qred (Qmake k 1) = Qmake k 1.
Proof.
  unfold Qred.
  pose proof (Z.ggcd_gcd k 1) as Hg.
  pose proof (Z.ggcd_correct_divisors k 1) as Hd.
  destruct (Z.ggcd k 1) as (g, (r1, r2)). cbn [fst snd] in *.
  rewrite Z.gcd_1_r in Hg. subst g. destruct Hd as [H1 H2].
  rewrite Z.mul_1_l in H1, H2. subst r1 r2. reflexivity.
Qed.

(** Known quotients: a third, a tenth, two ties, which go to the even
    significand, one microsecond past a whole second of 2020 and one
    microsecond before the epoch. *)
Lemma true_divide_rounds :
  true_divide 1 3 = Qmake 6004799503160661 18014398509481984
  /\ true_divide 1 10 = Qmake 3602879701896397 36028797018963968
  /\ true_divide 9007199254740993 1 = Qmake 9007199254740992 1
  /\ true_divide 9007199254740995 1 = Qmake 9007199254740996 1
  /\ true_divide 1577836800000001 1000000 = Qmake 1654481800396801 1048576
  /\ true_divide (-1) 1000000 = Qmake (-4722366482869645) 4722366482869645213696.
Proof. repeat split; vm_compute; reflexivity. Qed.

(** The float nearest to a whole number below 2^53 in magnitude is that
    number. *)
Lemma true_divide_exact (k d : Z) :
  0 < d -> Z.abs k < 2 ^ 53 -> true_divide (k * d) d = Qmake k 1.
Proof.
  intros Hd Hk. rewrite <- (Qred_whole k). unfold true_divide.
  destruct (Z.eqb_spec (k * d) 0) as [H0|H0].
  { assert (k = 0) by nia. subst k. reflexivity. }
  cbn zeta.
  assert (Hk0 : k <> 0) by (intros ->; lia).
  assert (Ha : Z.abs (k * d) = Z.abs k * d) by (rewrite Z.abs_mul; f_equal; lia).
  rewrite Ha.
  pose proof (ulp_exponent_small (Z.abs k) d Hd ltac:(lia)) as He.
  set (e := ulp_exponent (Z.abs k * d) d) in *.
  apply Qred_complete.
  assert (Hv : ((if 0 <=? e
                 then Qmake (round_half_even (scaled_num (Z.abs k * d) e)
                                             (scaled_den d e) * 2 ^ e) 1
                 else Qmake (round_half_even (scaled_num (Z.abs k * d) e) (scaled_den d e))
                            (Z.to_pos (2 ^ (- e))))
                == Qmake (Z.abs k) 1)%Q).
  { unfold scaled_num, scaled_den. destruct (Z.leb_spec 0 e) as [Hpos|Hneg].
    - assert (He0 : e = 0) by lia. rewrite He0.
      change (2 ^ 0) with 1. rewrite !Z.mul_1_r.
      now rewrite round_half_even_exact.
    - assert (Hp : 0 < 2 ^ (- e)) by (apply Z.pow_pos_nonneg; lia).
      replace (Z.abs k * d * 2 ^ (- e)) with (Z.abs k * 2 ^ (- e) * d) by ring.
      rewrite round_half_even_exact by lia.
      unfold Qeq. cbn [Qnum Qden]. rewrite Z2Pos.id by lia. ring. }
  destruct (Z.ltb_spec (k * d) 0).
  - rewrite Hv. unfold Qeq, Qopp. cbn [Qnum Qden]. lia.
  - rewrite Hv. unfold Qeq. cbn [Qnum Qden]. nia.
Qed.

Lemma iso8601_valid (s : string) (dt : datetime) :
  iso8601 s = Some dt -> valid_date dt = true.
Proof.
  unfold iso8601.
  destruct (_ && _); [|discriminate].
  destruct (field s 0 4); [|discriminate].
  destruct (field s 5 2); [|discriminate].
  destruct (field s 8 2); [|discriminate].
  destruct (field s 11 2); [|discriminate].
  destruct (field s 14 2); [|discriminate].
  destruct (field s 17 2); [|discriminate].
  destruct (zone_of s); [|discriminate].
  match goal with |- context [valid_date ?d] => destruct (valid_date d) eqn:Hv end;
    cbn [andb]; [|discriminate].
  destruct (_ && _); [|discriminate].
  intros [= <-]. exact Hv.
Qed.

(** ** Frames in which the body of [fetch] has been entered *)

Lemma first_fetch_next_started (env : Collaborators) (w : World) :
  body_started (snd (fst (fetch_next env MetaCreated w))) = true.
Proof.
  rewrite fetch_next_created. unfold first_fetch_next.
  destruct (fetched env (client (self w))) as [raw|e]; [|reflexivity].
  destruct (feedparser_parse env raw) as [parsed|e]; [|reflexivity].
  unfold deliver. destruct (entries parsed) as [|e rest]; [reflexivity|].
  destruct (envelope env e); reflexivity.
Qed.

Lemma forallb_is_log_tail (w w' : World) (n : nat) :
  effects w' = effects w \/ effects w' = effects w ++ [closing_log n] ->
  forallb is_log (new_effects w w') = true.
Proof.
  intros [H|H].
  - rewrite (new_effects_app w w' []); [reflexivity|now rewrite app_nil_r].
  - now rewrite (new_effects_app w w' _ H).
Qed.

Lemma consume_started (env : Collaborators) (fuel : nat)
  (f : metadata_frame fetch_frame) (w : World) :
  body_started f = true ->
  let r := consume (fetch_next env) fuel f w in
  self (world_after r) = self w
  /\ forallb is_log (new_effects w (world_after r)) = true.
Proof.
  intros Hf. cbn zeta. destruct fuel as [|k].
  - cbn [consume world_after]. split; [reflexivity|].
    apply (forallb_is_log_tail w w 0%nat). now left.
  - destruct f as [|[|es n|]|]; try discriminate.
    + destruct (consume_deliver_any env (fetch_next env) FetchYielding
                  (fun m => [closing_log m]) (fetch_next_yielding env) k es (S n)
                  (MetaIterating (FetchYielding es n)) w w
                  (fetch_next_yielding env es n w)) as (Hs & He & _).
      split; [exact Hs|]. eapply forallb_is_log_tail. exact He.
    + cbn [consume]. rewrite (proj2 (fetch_next_finished env w)). cbn [world_after].
      split; [reflexivity|]. apply (forallb_is_log_tail w w 0%nat). now left.
    + cbn [consume]. rewrite (proj1 (fetch_next_finished env w)). cbn [world_after].
      split; [reflexivity|]. apply (forallb_is_log_tail w w 0%nat). now left.
Qed.

(** ** Replays read the backend object and nothing else *)

Lemma replay_step_self (env : Collaborators) (f : metadata_frame replay_frame) (s : RSS) :
  exists res f' evs, forall w,
    self w = s -> fetch_from_cache_next env f w = (res, f', add_effects w evs).
Proof.
  assert (Hfirst : exists res f' evs, forall w,
             self w = s -> first_replay_next env w = (res, f', add_effects w evs)).
  { unfold first_replay_next. destruct (cache s) as [c|] eqn:Hc.
    - destruct (Cache_retrieve c) as [|payload more] eqn:Hr.
      + do 3 eexists. intros w <-. rewrite Hc, Hr. reflexivity.
      + destruct (feedparser_parse env payload) as [parsed|e] eqn:Hp.
        * unfold deliver. destruct (entries parsed) as [|e rest] eqn:He.
          -- do 3 eexists. intros w <-. rewrite Hc, Hr, Hp, He.
             rewrite add_effects_add. reflexivity.
          -- destruct (envelope env e) as [it|x] eqn:Hw;
               do 3 eexists; intros w <-; rewrite Hc, Hr, Hp, He, Hw; reflexivity.
        * do 3 eexists. intros w <-. rewrite Hc, Hr, Hp. reflexivity.
    - exists (Raised (CacheError "cache instance was not provided")), MetaFinished, [].
      intros w <-. rewrite Hc. now rewrite add_effects_nil. }
  destruct f as [|[|es|]|].
  - destruct Hfirst as (res & f' & evs & H). exists res, f', evs.
    intros w Hw. rewrite (proj1 (replay_next_created env w)). auto.
  - destruct Hfirst as (res & f' & evs & H). exists res, f', evs.
    intros w Hw. rewrite (proj2 (replay_next_created env w)). auto.
  - destruct es as [|e rest].
    + exists Exhausted, MetaFinished, []. intros w _.
      rewrite (replay_next_yielding env [] 0 w). reflexivity.
    + destruct (envelope env e) as [it|x] eqn:He; do 3 eexists; intros w _;
        rewrite (replay_next_yielding env (e :: rest) 0 w); unfold deliver; rewrite He;
        rewrite <- (add_effects_nil w) at 1; reflexivity.
  - exists Exhausted, MetaFinished, []. intros w _.
    rewrite (proj2 (replay_next_finished env w)). now rewrite add_effects_nil.
  - exists Exhausted, MetaFinished, []. intros w _.
    rewrite (proj1 (replay_next_finished env w)). now rewrite add_effects_nil.
Qed.

Lemma replay_consume_self (env : Collaborators) (fuel : nat) :
  forall (f : metadata_frame replay_frame) (w1 w2 : World),
    self w1 = self w2 ->
    let r1 := consume (fetch_from_cache_next env) fuel f w1 in
    let r2 := consume (fetch_from_cache_next env) fuel f w2 in
    produced r1 = produced r2 /\ ended r1 = ended r2
    /\ frame_after r1 = frame_after r2
    /\ exists evs, world_after r1 = add_effects w1 evs /\ world_after r2 = add_effects w2 evs.
Proof.
  induction fuel as [|k IH]; intros f w1 w2 Hs; cbn zeta.
  - cbn [consume produced ended frame_after world_after]. repeat split.
    exists []. now rewrite !add_effects_nil.
  - cbn [consume].
    destruct (replay_step_self env f (self w1)) as (res & f' & evs & H).
    rewrite (H w1 eq_refl), (H w2 (eq_sym Hs)).
    destruct res as [x| |e]; cbn [produced ended frame_after world_after].
    + specialize (IH f' (add_effects w1 evs) (add_effects w2 evs) Hs).
      cbn zeta in IH. destruct IH as (Hp & He & Hf & evs' & E1 & E2).
      rewrite Hp, He, Hf. repeat split.
      exists (evs ++ evs'). now rewrite E1, E2, !add_effects_add.
    + repeat split. now exists evs.
    + repeat split. now exists evs.
Qed.

(** ** Every run comes to an end *)

Lemma run_fetch_total (env : Collaborators) (w : World) :
  exists n, forall fuel, (n <= fuel)%nat -> ended (run_fetch env fuel w) <> Pending.
Proof.
  destruct (fetched env (client (self w))) as [raw|e] eqn:H1.
  - destruct (feedparser_parse env raw) as [parsed|e] eqn:H2.
    + exists (S (length (entries parsed))). intros [|k] Hk; [lia|].
      rewrite (run_fetch_parsed env k w raw parsed H1 H2) by lia.
      unfold delivered. cbn [ended]. now destruct (snd (wrap_all env (entries parsed))).
    + exists 1%nat. intros [|k] Hk; [lia|].
      now rewrite (run_fetch_parse_fails env k w raw e H1 H2).
  - exists 1%nat. intros [|k] Hk; [lia|].
    now rewrite (run_fetch_request_fails env k w e H1).
Qed.

Lemma run_fetch_from_cache_total (env : Collaborators) (w : World) :
  exists n, forall fuel, (n <= fuel)%nat -> ended (run_fetch_from_cache env fuel w) <> Pending.
Proof.
  unfold run_fetch_from_cache.
  pose proof (proj1 (replay_next_created env w)) as Hn. unfold first_replay_next in Hn.
  destruct (cache (self w)) as [c|].
  - destruct (Cache_retrieve c) as [|payload more].
    + exists 1%nat. intros [|k] Hk; [lia|]. cbn [consume]. now rewrite Hn.
    + destruct (feedparser_parse env payload) as [parsed|e].
      * exists (S (length (entries parsed))). intros [|k] Hk; [lia|].
        rewrite (consume_deliver env (fetch_from_cache_next env)
                   (fun es _ => ReplayYielding es) (fun _ => [])
                   (fun es n w' => replay_next_yielding env es n w')
                   (entries parsed) 0 k MetaCreated w _ Hn) by lia.
        unfold delivered. cbn [ended]. now destruct (snd (wrap_all env (entries parsed))).
      * exists 1%nat. intros [|k] Hk; [lia|]. cbn [consume]. now rewrite Hn.
  - exists 1%nat. intros [|k] Hk; [lia|]. cbn [consume]. now rewrite Hn.
Qed.

Lemma metadata_updated_on_raises (env : Collaborators) (item : Entry) (e : exn) :
  metadata_updated_on env item = Raise e -> escaping e = e.
Proof.
  unfold metadata_updated_on, getitem, str_to_datetime.
  destruct (item !! "published") as [[| | |s]|]; try (intros [= <-]; reflexivity).
  destruct (dateutil_parse env s); [discriminate|]. intros [= <-]. reflexivity.
Qed.

(* ================================================================== *)
(** * The metadata extractors *)
(* ================================================================== *)

(** C6: for an entry that has a [link] field, [metadata_id] is the string
    coercion of that field; for an entry without one it fails with the
    [KeyError] of the missing field (the spec's FieldMissingError). *)
Theorem C6_metadata_id (item : Entry) :
  (forall v, item !! "link" = Some v -> metadata_id item = Ok (py_str v))
  /\ (item !! "link" = None -> metadata_id item = Raise (KeyError "link")).
Proof.
  unfold metadata_id, getitem. split.
  - intros v H. now rewrite H.
  - intros H. now rewrite H.
Qed.

Lemma C6_metadata_id_witness :
  metadata_id (<["link" := VInt 42]> ∅) = Ok "42"%string
  /\ metadata_id entry_1 = Ok "http://x/1"%string
  /\ metadata_id (<["title" := VStr "no link"]> ∅) = Raise (KeyError "link").
Proof.
  split; [|split].
  - apply (proj1 (C6_metadata_id (<["link" := VInt 42]> ∅)) (VInt 42)). reflexivity.
  - apply (proj1 (C6_metadata_id entry_1) (VStr "http://x/1")). reflexivity.
  - apply (proj2 (C6_metadata_id (<["title" := VStr "no link"]> ∅))). reflexivity.
Defined.

(** C7: [metadata_category] returns the constant ["entry"] for every
    entry, whatever it holds, and so does the [category] field of every
    record a live fetch hands out. *)
Theorem C7_metadata_category (item : Entry) :
  metadata_category item = "entry"%string
  /\ forall env fuel w it, In it (produced (run_fetch env fuel w)) ->
                           category it = metadata_category item.
Proof.
  split; [reflexivity|]. intros env fuel w it.
  change (metadata_category item) with "entry"%string.
  destruct fuel as [|k]; [intros []|].
  destruct (fetched env (client (self w))) as [raw|e] eqn:H1.
  - destruct (feedparser_parse env raw) as [parsed|e] eqn:H2.
    + destruct (run_fetch_parsed_any env k w raw parsed H1 H2)
        as (_ & _ & (later & Hl) & _).
      intros Hin. apply (wrap_all_category env (entries parsed)).
      rewrite Hl. apply in_or_app. now left.
    + rewrite (run_fetch_parse_fails env k w raw e H1 H2). intros [].
  - rewrite (run_fetch_request_fails env k w e H1). intros [].
Qed.

Lemma C7_metadata_category_witness :
  let it := {| item_id := "http://x/2"; updated_on := Qmake 1577923200 1;
               category := "entry"; data := entry_2 |} in
  In it (produced (run_fetch scenario_env 3 (world_of "http://x/feed" None)))
  /\ category it = metadata_category entry_undated.
Proof.
  cbn zeta.
  assert (Hin : In {| item_id := "http://x/2"; updated_on := Qmake 1577923200 1;
                      category := "entry"; data := entry_2 |}
                  (produced (run_fetch scenario_env 3 (world_of "http://x/feed" None)))).
  { vm_compute. right. left. reflexivity. }
  split; [exact Hin|].
  exact (proj2 (C7_metadata_category entry_undated) scenario_env 3%nat
           (world_of "http://x/feed" None) _ Hin).
Defined.

(** C5: for every entry whose [published] field is a date, the update
    time is the UNIX timestamp of the instant that date denotes, as a
    float: the float nearest to the number of seconds from
    1970-01-01T00:00:00Z to that instant, which for a date of whole seconds
    is that number itself; the two dates of the scenario give 1577836800
    and 1577923200, in that order. *)
Theorem C5_updated_on_is_unix_time (env : Collaborators) (item : Entry)
  (s : string) (dt : datetime) :
  item !! "published" = Some (VStr s) ->
  dateutil_parse env s = Some dt ->
  valid_date dt = true ->
  metadata_updated_on env item = Ok (unix_seconds dt)
  /\ (microsecond dt = 0 ->
      Z.abs (unix_whole_seconds dt) < 2 ^ 53 ->
      metadata_updated_on env item = Ok (Qmake (unix_whole_seconds dt) 1))
  /\ metadata_updated_on scenario_env entry_1 = Ok (Qmake 1577836800 1)
  /\ metadata_updated_on scenario_env entry_2 = Ok (Qmake 1577923200 1)
  /\ map updated_on (produced (run_fetch scenario_env 3 (world_of "http://x/feed" None)))
     = [Qmake 1577836800 1; Qmake 1577923200 1].
Proof.
  intros Hp Hd Hv.
  assert (Hts : metadata_updated_on env item = Ok (unix_seconds dt)).
  { unfold metadata_updated_on, getitem, str_to_datetime.
    rewrite Hp, Hd. now rewrite timestamp_unix_seconds. }
  split; [exact Hts|]. split; [|repeat split; vm_compute; reflexivity].
  intros Hus Hsmall. rewrite Hts. f_equal.
  unfold unix_seconds, unix_microseconds. rewrite Hus, Z.add_0_r.
  apply true_divide_exact; [lia|exact Hsmall].
Qed.

Lemma C5_updated_on_is_unix_time_witness :
  metadata_updated_on scenario_env
    (<["published" := VStr "2020-01-01T02:00:00+02:00"]> ∅)
  = Ok (Qmake 1577836800 1)
  /\ metadata_updated_on
       {| requests_get := requests_get scenario_env;
          feedparser_parse := feedparser_parse scenario_env;
          dateutil_parse := fun _ =>
            Some {| year := 2020; month := 1; day := 1; hour := 0; minute := 0;
                    second := 0; microsecond := 1; utcoffset := 0 |} |}
       entry_1
     = Ok (Qmake 1654481800396801 1048576).
Proof.
  split.
  - refine (proj1 (proj2 (C5_updated_on_is_unix_time scenario_env
                            (<["published" := VStr "2020-01-01T02:00:00+02:00"]> ∅)
                            "2020-01-01T02:00:00+02:00"
                            {| year := 2020; month := 1; day := 1; hour := 2; minute := 0;
                               second := 0; microsecond := 0; utcoffset := 7200 |}
                            _ _ _)) _ _); first [reflexivity | vm_compute; reflexivity].
  - refine (proj1 (C5_updated_on_is_unix_time
                     {| requests_get := requests_get scenario_env;
                        feedparser_parse := feedparser_parse scenario_env;
                        dateutil_parse := fun _ =>
                          Some {| year := 2020; month := 1; day := 1; hour := 0;
                                  minute := 0; second := 0; microsecond := 1;
                                  utcoffset := 0 |} |}
                     entry_1 "2020-01-01T00:00:00Z"
                     {| year := 2020; month := 1; day := 1; hour := 0; minute := 0;
                        second := 0; microsecond := 1; utcoffset := 0 |}
                     _ _ _)); reflexivity.
Defined.

(** C4, as the code has it: a missing [published] field makes
    [metadata_updated_on] fail with the [KeyError] of the missing field, a
    [published] field that is not a date makes it fail with a
    [DateParseError]; in a live fetch the failure leaves the generator when
    the record of that entry is asked for, after the records of the entries
    before it have been handed out and after the flush, and no record
    follows it. *)
Theorem C4_updated_on_failure (env : Collaborators) (item : Entry) :
  (item !! "published" = None ->
   metadata_updated_on env item = Raise (KeyError "published"))
  /\ (forall v, item !! "published" = Some v ->
                (forall s, v = VStr s -> dateutil_parse env s = None) ->
                metadata_updated_on env item = Raise (DateParseError v))
  /\ (forall e w raw parsed good rest fuel,
         metadata_updated_on env item = Raise e ->
         is_Some (item !! "link") ->
         fetched env (client (self w)) = Ok raw ->
         feedparser_parse env raw = Ok parsed ->
         entries parsed = good ++ item :: rest ->
         snd (wrap_all env good) = None ->
         (length (entries parsed) < fuel)%nat ->
         let r := run_fetch env fuel w in
         produced r = fst (wrap_all env good)
         /\ length (produced r) = length good
         /\ ended r = Failed e
         /\ In FlushQueue (new_effects w (world_after r))).
Proof.
  split; [|split].
  - intros H. unfold metadata_updated_on, getitem. now rewrite H.
  - intros v H Hs. unfold metadata_updated_on, getitem, str_to_datetime. rewrite H.
    destruct v as [| | |s]; try reflexivity. now rewrite (Hs s eq_refl).
  - intros e w raw parsed good rest fuel He [l Hl] H1 H2 Hes Hg Hfuel. cbn zeta.
    destruct fuel as [|k]; [lia|].
    rewrite (run_fetch_parsed env k w raw parsed H1 H2) by lia.
    assert (Henv : envelope env item = Raise e).
    { unfold envelope, metadata_id, getitem. now rewrite Hl, He. }
    unfold delivered. rewrite Hes, (wrap_all_stops env good item rest e Hg Henv).
    cbn [produced ended world_after fst snd ending_of].
    rewrite (metadata_updated_on_raises env item e He).
    repeat split; [now apply wrap_all_length|].
    rewrite (new_effects_app w _ (flush_events (self w) raw)) by reflexivity.
    unfold flush_events. apply in_or_app. right. now left.
Qed.

Lemma C4_updated_on_failure_witness :
  metadata_updated_on scenario_env entry_undated = Raise (KeyError "published")
  /\ metadata_updated_on scenario_env entry_misdated
     = Raise (DateParseError (VStr "yesterday"))
  /\ (let r := run_fetch scenario_env 3 (world_of "http://x/undated" None) in
      length (produced r) = 1%nat /\ ended r = Failed (KeyError "published")).
Proof.
  pose proof (C4_updated_on_failure scenario_env entry_undated) as (Ha & _ & Hrun).
  pose proof (C4_updated_on_failure scenario_env entry_misdated) as (_ & Hb & _).
  split; [|split].
  - apply Ha. reflexivity.
  - apply (Hb (VStr "yesterday")); [reflexivity|].
    intros s [= <-]. reflexivity.
  - specialize (Hrun (KeyError "published") (world_of "http://x/undated" None)
                  undated_feed {| entries := [entry_1; entry_undated]; bozo := false |}
                  [entry_1] [] 3%nat).
    cbn zeta in *.
    destruct Hrun as (_ & Hlen & Hend & _);
      try reflexivity; try (vm_compute; lia).
    + exists (VStr "http://x/3"). reflexivity.
    + split; [exact Hlen|exact Hend].
Defined.

(** C4 as stated fails: an entry without [published] does not raise the
    date error but the [KeyError] of the missing field, and the fetch that
    meets it has already handed out the record of the entry before it. *)
Lemma C4_counterexample :
  let r := run_fetch scenario_env 3 (world_of "http://x/undated" None) in
  entry_undated !! "published" = None
  /\ metadata_updated_on scenario_env entry_undated = Raise (KeyError "published")
  /\ (forall v, metadata_updated_on scenario_env entry_undated <> Raise (DateParseError v))
  /\ map item_id (produced r) = ["http://x/1"%string]
  /\ ended r = Failed (KeyError "published").
Proof.
  cbn zeta. repeat split; try (vm_compute; reflexivity).
  intros v. vm_compute. discriminate.
Qed.

(* ================================================================== *)
(** * The live fetch and the cache *)
(* ================================================================== *)

Lemma no_flush_in_parse_events (s : RSS) (raw : string) :
  ~ In FlushQueue (parse_events s raw).
Proof.
  unfold parse_events, request_events, opening_log. cbn [app In].
  intros H. repeat (destruct H as [H|H]; [discriminate|]). exact H.
Qed.

Lemma no_flush_in_request_events (s : RSS) : ~ In FlushQueue (request_events s).
Proof.
  unfold request_events, opening_log. cbn [In].
  intros H. repeat (destruct H as [H|H]; [discriminate|]). exact H.
Qed.

Lemma no_flush_in_logs (tail : list event) :
  forallb is_log tail = true -> ~ In FlushQueue tail.
Proof.
  intros H Hin. rewrite forallb_forall in H. specialize (H _ Hin). discriminate.
Qed.

(** C1, as the code has it: in a live fetch the flush is invoked only
    after the retrieval, the push and the parse step have succeeded, once,
    right after the parse; in every run in which the retrieval or the parse
    raises, the run fails with that error without a record and the flush is
    never invoked; and once retrieval and parse have succeeded the flush is
    invoked in the first step, before any entry is wrapped, whatever the
    metadata extraction of the entries does afterwards, so that a run that
    has handed out a record has flushed. *)
Theorem C1_flush_follows_parse (env : Collaborators) (fuel : nat) (w : World) :
  let r := run_fetch env fuel w in
  let evs := new_effects w (world_after r) in
  (In FlushQueue evs ->
   exists raw parsed tail,
     fetched env (client (self w)) = Ok raw
     /\ feedparser_parse env raw = Ok parsed
     /\ evs = parse_events (self w) raw ++ FlushQueue :: tail
     /\ forallb is_log tail = true)
  /\ (forall e,
         fetched env (client (self w)) = Raise e
         \/ (exists raw, fetched env (client (self w)) = Ok raw
                         /\ feedparser_parse env raw = Raise e) ->
         ~ In FlushQueue evs
         /\ produced r = []
         /\ (fuel <> 0%nat -> ended r = Failed (escaping e)))
  /\ (forall raw parsed,
         fetched env (client (self w)) = Ok raw ->
         feedparser_parse env raw = Ok parsed ->
         fuel <> 0%nat ->
         In FlushQueue evs)
  /\ (produced r <> [] -> In FlushQueue evs).
Proof.
  cbn zeta.
  assert (Hflush : forall raw parsed,
             fetched env (client (self w)) = Ok raw ->
             feedparser_parse env raw = Ok parsed ->
             fuel <> 0%nat ->
             In FlushQueue (new_effects w (world_after (run_fetch env fuel w)))).
  { intros raw parsed H1 H2 Hfuel. destruct fuel as [|k]; [congruence|].
    destruct (run_fetch_parsed_any env k w raw parsed H1 H2) as (_ & He & _).
    destruct He as [He|He]; rewrite (new_effects_app w _ _ He);
      unfold flush_events; rewrite ?in_app_iff; cbn [In]; auto. }
  split; [|split; [|split; [exact Hflush|]]].
  - intros Hin.
    destruct (run_fetch_effects env fuel w)
      as [H|[(e & _ & H)|[(raw & e & _ & _ & H)|(raw & parsed & tail & H1 & H2 & H & Hlog)]]];
      cbn zeta in H; rewrite H in Hin.
    + destruct Hin.
    + now apply no_flush_in_request_events in Hin.
    + now apply no_flush_in_parse_events in Hin.
    + exists raw, parsed, tail. repeat split; auto.
  - intros e He. destruct fuel as [|k].
    + unfold run_fetch. cbn [consume world_after produced].
      unfold new_effects. rewrite drop_all. repeat split; [intros []|congruence].
    + destruct He as [He|(raw & H1 & H2)].
      * rewrite (run_fetch_request_fails env k w e He).
        cbn [world_after produced ended].
        rewrite (new_effects_app w _ (request_events (self w))) by reflexivity.
        repeat split. apply no_flush_in_request_events.
      * rewrite (run_fetch_parse_fails env k w raw e H1 H2).
        cbn [world_after produced ended].
        rewrite (new_effects_app w _ (parse_events (self w) raw)) by reflexivity.
        repeat split. apply no_flush_in_parse_events.
  - intros Hne. destruct fuel as [|k]; [now exfalso; apply Hne|].
    destruct (fetched env (client (self w))) as [raw|e] eqn:H1.
    + destruct (feedparser_parse env raw) as [parsed|e] eqn:H2.
      * now apply (Hflush raw parsed).
      * exfalso. apply Hne. now rewrite (run_fetch_parse_fails env k w raw e H1 H2).
    + exfalso. apply Hne. now rewrite (run_fetch_request_fails env k w e H1).
Qed.

Lemma C1_flush_follows_parse_witness :
  (let r := run_fetch scenario_env 3 (world_of "http://x/undated" (Some old_cache)) in
   In FlushQueue (new_effects (world_of "http://x/undated" (Some old_cache)) (world_after r)))
  /\ (let r := run_fetch offline_env 3 (world_of "http://x/feed" (Some old_cache)) in
      ~ In FlushQueue (new_effects (world_of "http://x/feed" (Some old_cache)) (world_after r))
      /\ produced r = [] /\ ended r = Failed ConnectionError).
Proof.
  split.
  - refine (proj1 (proj2 (proj2 (C1_flush_follows_parse scenario_env 3
                                   (world_of "http://x/undated" (Some old_cache)))))
              undated_feed {| entries := [entry_1; entry_undated]; bozo := false |}
              _ _ _); first [reflexivity | lia].
  - destruct (proj1 (proj2 (C1_flush_follows_parse offline_env 3
                              (world_of "http://x/feed" (Some old_cache))))
                ConnectionError) as (Hno & Hp & He).
    + left. reflexivity.
    + cbn zeta. split; [exact Hno|]. split; [exact Hp|]. apply He. lia.
Defined.

(** C1 as stated fails: in the fetch of the feed whose second entry has no
    [published] element, the metadata extraction of that entry raises and
    the flush has been invoked all the same; the cache holds the new
    payload. *)
Lemma C1_counterexample :
  let w := world_of "http://x/undated" (Some old_cache) in
  let r := run_fetch scenario_env 3 w in
  metadata_updated_on scenario_env entry_undated = Raise (KeyError "published")
  /\ ended r = Failed (KeyError "published")
  /\ In FlushQueue (new_effects w (world_after r))
  /\ cache (self (world_after r)) = Some {| committed := [undated_feed] |}.
Proof.
  cbn zeta. repeat split; try (vm_compute; reflexivity).
  vm_compute. do 5 right. left. reflexivity.
Qed.

(** C3: with a cache configured, a live fetch that completes leaves in the
    cache exactly the raw payload it retrieved; a live fetch that fails
    before the flush is reached leaves the cache as it was. *)
Theorem C3_cache_after_fetch (env : Collaborators) (fuel : nat) (w : World) (c : Cache) :
  cache (self w) = Some c ->
  let r := run_fetch env fuel w in
  (ended r = Completed ->
   exists raw c',
     fetched env (client (self w)) = Ok raw
     /\ cache (self (world_after r)) = Some c'
     /\ Cache_retrieve c' = [raw])
  /\ (forall e, ended r = Failed e ->
                ~ In FlushQueue (new_effects w (world_after r)) ->
                cache (self (world_after r)) = Some c).
Proof.
  intros Hc. cbn zeta. destruct fuel as [|k].
  - unfold run_fetch. cbn [consume ended]. split; [discriminate|]. intros e; discriminate.
  - destruct (fetched env (client (self w))) as [raw|e] eqn:H1.
    + destruct (feedparser_parse env raw) as [parsed|e] eqn:H2.
      * destruct (run_fetch_parsed_any env k w raw parsed H1 H2) as (Hs & He & _).
        split.
        -- intros _. exists raw, (Cache_store c [raw]).
           rewrite Hs. unfold flushed. rewrite Hc. repeat split.
        -- intros e _ Hno. exfalso. apply Hno.
           destruct He as [He|He]; rewrite (new_effects_app w _ _ He);
             unfold flush_events; rewrite ?in_app_iff; cbn [In]; auto.
      * rewrite (run_fetch_parse_fails env k w raw e H1 H2). cbn [ended world_after self].
        split; [discriminate|]. intros _ _ _. exact Hc.
    + rewrite (run_fetch_request_fails env k w e H1). cbn [ended world_after self].
      split; [discriminate|]. intros _ _ _. exact Hc.
Qed.

Lemma C3_cache_after_fetch_witness :
  (exists c', cache (self (world_after
                 (run_fetch scenario_env 3 (world_of "http://x/feed" (Some empty_cache)))))
              = Some c' /\ Cache_retrieve c' = [atom_feed])
  /\ cache (self (world_after
        (run_fetch offline_env 3 (world_of "http://x/feed" (Some old_cache)))))
     = Some old_cache.
Proof.
  split.
  - destruct (proj1 (C3_cache_after_fetch scenario_env 3
                       (world_of "http://x/feed" (Some empty_cache)) empty_cache eq_refl))
      as (raw & c' & Hraw & Hc' & Hr).
    + vm_compute. reflexivity.
    + exists c'. split; [exact Hc'|]. rewrite Hr. f_equal.
      revert Hraw. vm_compute. congruence.
  - apply (proj2 (C3_cache_after_fetch offline_env 3
                    (world_of "http://x/feed" (Some old_cache)) old_cache eq_refl)
             ConnectionError).
    + vm_compute. reflexivity.
    + vm_compute. intros H. repeat (destruct H as [H|H]; [discriminate|]). exact H.
Defined.

(** C8: when the payload retrieved is the empty string, the parse yields
    zero entries and raises nothing, the live fetch completes without a
    record and, with a cache configured, it commits the empty payload to
    the cache all the same. *)
Theorem C8_empty_payload (get : string -> result Response)
  (detect : string -> option (list Entry)) (dates : string -> option datetime)
  (fuel : nat) (w : World) (c : Cache) :
  let env := {| requests_get := get;
                feedparser_parse := lenient_parse detect;
                dateutil_parse := dates |} in
  cache (self w) = Some c ->
  fetched env (client (self w)) = Ok ""%string ->
  fuel <> 0%nat ->
  let r := run_fetch env fuel w in
  (forall w', fst (parse_feed env "" w') = Ok {| entries := []; bozo := true |})
  /\ produced r = []
  /\ ended r = Completed
  /\ cache (self (world_after r)) = Some (Cache_store c [""%string])
  /\ Cache_retrieve (Cache_store c [""%string]) = [""%string]
  /\ new_effects w (world_after r) = flush_events (self w) "" ++ [closing_log 0].
Proof.
  cbn zeta. intros Hc H1 Hfuel. destruct fuel as [|k]; [congruence|].
  split; [reflexivity|].
  rewrite (run_fetch_parsed _ k w "" {| entries := []; bozo := true |} H1 eq_refl)
    by (cbn; lia).
  unfold delivered. cbn [entries wrap_all fst snd ending_of produced ended world_after
                         length add_effects self effects].
  unfold flushed. rewrite Hc. repeat split.
  apply new_effects_app. cbn [effects]. now rewrite app_assoc.
Qed.

Lemma C8_empty_payload_witness :
  let env := {| requests_get := requests_get scenario_env;
                feedparser_parse :=
                  lenient_parse (table_detect [(atom_feed, [entry_1; entry_2])]);
                dateutil_parse := iso8601 |} in
  let r := run_fetch env 1 (world_of "http://x/empty" (Some old_cache)) in
  produced r = []
  /\ ended r = Completed
  /\ cache (self (world_after r)) = Some {| committed := [""%string] |}.
Proof.
  destruct (C8_empty_payload (requests_get scenario_env)
              (table_detect [(atom_feed, [entry_1; entry_2])]) iso8601
              1 (world_of "http://x/empty" (Some old_cache)) old_cache)
    as (_ & Hp & He & Hc & _); [reflexivity|reflexivity|lia|].
  cbn zeta. split; [exact Hp|]. split; [exact He|exact Hc].
Defined.

(** C10: calling [fetch()] changes nothing: no purge, no request, no
    commit; the first [next] starts with the purge and the request and,
    when retrieval and parse succeed, carries out push, parse and flush as
    well, with the closing log line if the feed has no entry; every later
    [next] leaves the backend object alone and adds nothing but a log line
    to the trace. *)
Theorem C10_fetch_is_lazy (env : Collaborators) (w : World) :
  let first := fetch_next env MetaCreated w in
  let g := snd (fst first) in
  let w1 := snd first in
  fetch w = (Ok MetaCreated, w)
  /\ (exists rest, new_effects w w1 = request_events (self w) ++ rest)
  /\ (forall raw parsed,
         fetched env (client (self w)) = Ok raw ->
         feedparser_parse env raw = Ok parsed ->
         self w1 = flushed (self w) raw
         /\ new_effects w w1
            = flush_events (self w) raw
                ++ match entries parsed with
                   | [] => [closing_log 0]
                   | _ :: _ => []
                   end
         /\ (entries parsed = [] <-> fst (fst first) = Exhausted))
  /\ (forall fuel,
         let r := consume (fetch_next env) fuel g w1 in
         self (world_after r) = self w1
         /\ forallb is_log (new_effects w1 (world_after r)) = true).
Proof.
  cbn zeta. split; [reflexivity|]. split; [|split].
  - rewrite fetch_next_created. unfold first_fetch_next.
    destruct (fetched env (client (self w))) as [raw|e].
    + destruct (feedparser_parse env raw) as [parsed|e].
      * unfold deliver, flush_events, parse_events.
        destruct (entries parsed) as [|e rest]; [|destruct (envelope env e)];
          eexists; apply new_effects_app;
          cbn [snd add_effects effects self]; rewrite <- ?app_assoc; reflexivity.
      * unfold parse_events. eexists. apply new_effects_app.
        cbn [snd effects]. rewrite <- ?app_assoc. reflexivity.
    + exists []. apply new_effects_app. cbn [snd effects]. now rewrite app_nil_r.
  - intros raw parsed H1 H2. rewrite (fetch_next_parsed env w raw parsed H1 H2).
    unfold deliver. destruct (entries parsed) as [|e rest].
    + cbn [fst snd add_effects self effects]. repeat split.
      apply new_effects_app. cbn [effects]. now rewrite app_assoc.
    + destruct (envelope env e); cbn [fst snd self effects]; repeat split;
        try (apply new_effects_app; cbn [effects]; now rewrite app_nil_r);
        discriminate.
  - intros fuel. apply consume_started. apply first_fetch_next_started.
Qed.

Lemma C10_fetch_is_lazy_witness :
  let w := world_of "http://x/feed" (Some empty_cache) in
  let w1 := snd (fetch_next scenario_env MetaCreated w) in
  fetch w = (Ok MetaCreated, w)
  /\ self w1 = flushed (self w) atom_feed
  /\ new_effects w w1 = flush_events (self w) atom_feed ++ [].
Proof.
  cbn zeta.
  destruct (C10_fetch_is_lazy scenario_env (world_of "http://x/feed" (Some empty_cache)))
    as (Hcall & _ & Hfirst & _).
  destruct (Hfirst atom_feed {| entries := [entry_1; entry_2]; bozo := false |})
    as (Hs & He & _); [reflexivity|reflexivity|].
  split; [exact Hcall|]. split; [exact Hs|exact He].
Defined.

(* ================================================================== *)
(** * The replay from the cache *)
(* ================================================================== *)

(** C2, as the code has it: on a backend without a cache, calling
    [fetch_from_cache()] does nothing and the first [next] raises
    [CacheError], the one cache error class, with the cause
    "cache instance was not provided"; the world is left as it was, so
    nothing is requested from the network.  An empty cache ends
    differently: in the [StopIteration] of [next], which leaves the
    generator as a [RuntimeError]. *)
Theorem C2_replay_without_cache (env : Collaborators) (w : World) :
  (cache (self w) = None ->
   fetch_from_cache w = (Ok MetaCreated, w)
   /\ fetch_from_cache_next env MetaCreated w
      = (Raised (CacheError "cache instance was not provided"), MetaFinished, w)
   /\ forall fuel, fuel <> 0%nat ->
        run_fetch_from_cache env fuel w
        = {| produced := [];
             ended := Failed (CacheError "cache instance was not provided");
             frame_after := MetaFinished; world_after := w |})
  /\ (forall c, cache (self w) = Some c -> Cache_retrieve c = [] ->
      fetch_from_cache_next env MetaCreated w
      = (Raised (RuntimeError "generator raised StopIteration"), MetaFinished,
         add_effects w [CacheRetrieve])).
Proof.
  split.
  - intros Hc.
    assert (Hn : fetch_from_cache_next env MetaCreated w
                 = (Raised (CacheError "cache instance was not provided"),
                    MetaFinished, w)).
    { rewrite (proj1 (replay_next_created env w)). unfold first_replay_next.
      now rewrite Hc. }
    split; [reflexivity|]. split; [exact Hn|].
    intros [|k] Hk; [congruence|].
    unfold run_fetch_from_cache. cbn [consume]. now rewrite Hn.
  - intros c Hc Hr. rewrite (proj1 (replay_next_created env w)).
    unfold first_replay_next. now rewrite Hc, Hr.
Qed.

Lemma C2_replay_without_cache_witness :
  fetch_from_cache_next scenario_env MetaCreated (world_of "http://x/feed" None)
  = (Raised (CacheError "cache instance was not provided"), MetaFinished,
     world_of "http://x/feed" None)
  /\ fetch_from_cache_next scenario_env MetaCreated
       (world_of "http://x/feed" (Some empty_cache))
     = (Raised (RuntimeError "generator raised StopIteration"), MetaFinished,
        add_effects (world_of "http://x/feed" (Some empty_cache)) [CacheRetrieve]).
Proof.
  split.
  - destruct (proj1 (C2_replay_without_cache scenario_env (world_of "http://x/feed" None)))
      as (_ & Hn & _); [reflexivity|exact Hn].
  - apply (proj2 (C2_replay_without_cache scenario_env
                    (world_of "http://x/feed" (Some empty_cache))) empty_cache);
      reflexivity.
Defined.

(** C2 as stated fails: the exception raised without a cache is not
    distinct from the generic cache failure, it is a [CacheError]. *)
Lemma C2_counterexample :
  let w := world_of "http://x/feed" None in
  cache (self w) = None
  /\ ~ (exists e, fst (fst (fetch_from_cache_next scenario_env MetaCreated w)) = Raised e
                  /\ is_CacheError e = false).
Proof.
  cbn zeta. split; [reflexivity|].
  intros (e & He & Hclass). vm_compute in He.
  injection He as <-. discriminate.
Qed.

(** C9: two replays in a row, with nothing in between, hand out the same
    records and end the same way; a replay leaves the backend object, and
    with it the cache and the cache queue, as they were; and every replay
    comes to an end. *)
Theorem C9_replay_twice (env : Collaborators) (fuel : nat) (w : World) :
  let r1 := run_fetch_from_cache env fuel w in
  let r2 := run_fetch_from_cache env fuel (world_after r1) in
  produced r2 = produced r1
  /\ ended r2 = ended r1
  /\ self (world_after r1) = self w
  /\ self (world_after r2) = self w
  /\ new_effects (world_after r1) (world_after r2) = new_effects w (world_after r1)
  /\ exists n, forall fuel', (n <= fuel')%nat ->
       ended (run_fetch_from_cache env fuel' w) <> Pending.
Proof.
  cbn zeta. unfold run_fetch_from_cache.
  destruct (replay_consume_self env fuel MetaCreated w w eq_refl)
    as (_ & _ & _ & evs & E1 & _).
  cbn zeta in E1.
  assert (Hs : self w = self (world_after (consume (fetch_from_cache_next env) fuel
                                             MetaCreated w))).
  { now rewrite E1. }
  destruct (replay_consume_self env fuel MetaCreated w _ Hs)
    as (Hp & He & _ & evs' & E1' & E2).
  cbn zeta in *.
  set (r1 := consume (fetch_from_cache_next env) fuel MetaCreated w) in *.
  set (r2 := consume (fetch_from_cache_next env) fuel MetaCreated (world_after r1)) in *.
  split; [now symmetry|]. split; [now symmetry|].
  split; [now rewrite E1'|].
  split; [rewrite E2; cbn [add_effects self]; now rewrite E1'|].
  split; [|apply run_fetch_from_cache_total].
  rewrite E2, new_effects_add. now rewrite E1', new_effects_add.
Qed.

Lemma C9_replay_twice_witness :
  let w := world_of "http://x/feed" (Some old_cache) in
  let r1 := run_fetch_from_cache scenario_env 3 w in
  let r2 := run_fetch_from_cache scenario_env 3 (world_after r1) in
  produced r2 = produced r1
  /\ map item_id (produced r2) = ["http://x/1"; "http://x/2"]%string
  /\ ended r2 = Completed.
Proof.
  cbn zeta.
  destruct (C9_replay_twice scenario_env 3 (world_of "http://x/feed" (Some old_cache)))
    as (Hp & He & _).
  cbn zeta in Hp, He. split; [exact Hp|]. rewrite Hp, He.
  split; vm_compute; reflexivity.
Defined.

(* ================================================================== *)
(** * Further properties of the client and of the two generators *)
(* ================================================================== *)

(** ** Consumption, call by call *)

Lemma consume_step {F A : Type} (next : F -> World -> next_result A * F * World)
  (k : nat) (f : F) (w : World) :
  consume next (S k) f w
  = match next f w with
    | (Yielded x, f', w') =>
        {| produced := x :: produced (consume next k f' w');
           ended := ended (consume next k f' w');
           frame_after := frame_after (consume next k f' w');
           world_after := world_after (consume next k f' w') |}
    | (Exhausted, f', w') =>
        {| produced := []; ended := Completed; frame_after := f'; world_after := w' |}
    | (Raised e, f', w') =>
        {| produced := []; ended := Failed e; frame_after := f'; world_after := w' |}
    end.
Proof. reflexivity. Qed.

Section DeliveryByFuel.

Context {F : Type}.
Variable env : Collaborators.
Variable next : metadata_frame F -> World -> next_result Item * metadata_frame F * World.
Variable yielding : list Entry -> nat -> F.
Variable closing : nat -> list event.

Hypothesis next_yielding : forall es n w,
  next (MetaIterating (yielding es n)) w = deliver env yielding closing es (S n) w.

(** [k + 1] calls of [next] hand out the first [k + 1] envelopes, or all
    of them when there are fewer; the loop is over only once the call after
    the last envelope has been made, and only a loop that completed has
    added the closing lines. *)
Lemma consume_deliver_fuel (k : nat) :
  forall (es : list Entry) (count : nat) (f : metadata_frame F) (w0 w : World),
    next f w0 = deliver env yielding closing es count w ->
    let r := consume next (S k) f w0 in
    produced r = take (S k) (fst (wrap_all env es))
    /\ ended r = (if (S k <=? length (fst (wrap_all env es)))%nat
                  then Pending else ending_of (snd (wrap_all env es)))
    /\ self (world_after r) = self w
    /\ effects (world_after r)
       = effects w ++ match ended r with
                      | Completed => closing (count + length es)%nat
                      | _ => []
                      end.
Proof.
  induction k as [|k IH]; intros es count f w0 w Hf; cbn zeta;
    rewrite consume_step, Hf; (destruct es as [|e rest]; unfold deliver;
    [ cbn [produced ended world_after wrap_all fst snd ending_of length
           add_effects self effects take Nat.leb];
      rewrite Nat.add_0_r; repeat split; reflexivity
    | cbn [wrap_all length]; destruct (envelope env e) as [it|x];
      [ | cbn [produced ended world_after fst snd ending_of length take Nat.leb];
          rewrite app_nil_r; repeat split; reflexivity ] ]).
  - cbn [consume produced ended world_after fst snd length take Nat.leb].
    rewrite app_nil_r. repeat split; reflexivity.
  - specialize (IH rest (S count) _ w w (next_yielding rest count w)).
    cbn zeta in IH. destruct IH as (Hp & He & Hs & Hev).
    cbn [produced ended world_after fst snd length].
    rewrite Hp, He, Hs, Hev, He. rewrite Nat.add_succ_r.
    repeat split; reflexivity.
Qed.

End DeliveryByFuel.

Lemma wrap_all_data (env : Collaborators) (es : list Entry) :
  exists later, es = map data (fst (wrap_all env es)) ++ later
                /\ (snd (wrap_all env es) = None -> later = []).
Proof.
  induction es as [|e rest (later & IH & Hnone)]; cbn [wrap_all].
  - exists []. split; [reflexivity|auto].
  - unfold envelope at 1 2.
    destruct (metadata_id e) as [i|x].
    + destruct (metadata_updated_on env e) as [t|x]; cbn [fst snd map data].
      * exists later. split; [cbn [app]; now rewrite <- IH|exact Hnone].
      * exists (e :: rest). split; [reflexivity|discriminate].
    + exists (e :: rest). split; [reflexivity|discriminate].
Qed.

Lemma wrap_all_fields (env : Collaborators) (es : list Entry) :
  Forall (fun it => metadata_id (data it) = Ok (item_id it)
                    /\ metadata_updated_on env (data it) = Ok (updated_on it)
                    /\ category it = metadata_category (data it))
         (fst (wrap_all env es)).
Proof.
  induction es as [|e rest IH]; cbn [wrap_all]; [constructor|].
  unfold envelope at 1.
  destruct (metadata_id e) as [i|x] eqn:Hi; [|constructor].
  destruct (metadata_updated_on env e) as [t|x] eqn:Ht; [|constructor].
  cbn [fst]. constructor; [|exact IH]. cbn [data item_id updated_on category]. auto.
Qed.

Lemma run_fetch_by_fuel (env : Collaborators) (fuel : nat) (w : World)
  (raw : string) (parsed : FeedParserDict) :
  fetched env (client (self w)) = Ok raw ->
  feedparser_parse env raw = Ok parsed ->
  let r := run_fetch env fuel w in
  let wrapped := wrap_all env (entries parsed) in
  produced r = take fuel (fst wrapped)
  /\ ended r = (if (fuel <=? length (fst wrapped))%nat
                then Pending else ending_of (snd wrapped))
  /\ (fuel <> 0%nat ->
      self (world_after r) = flushed (self w) raw
      /\ new_effects w (world_after r)
         = flush_events (self w) raw
             ++ match ended r with
                | Completed => [closing_log (length (entries parsed))]
                | _ => []
                end).
Proof.
  intros H1 H2. cbn zeta. destruct fuel as [|k].
  - unfold run_fetch. cbn [consume produced ended take Nat.leb].
    repeat split; congruence.
  - destruct (consume_deliver_fuel env (fetch_next env) FetchYielding
                (fun n => [closing_log n]) (fetch_next_yielding env) k
                (entries parsed) 0 MetaCreated w _
                (fetch_next_parsed env w raw parsed H1 H2)) as (Hp & He & Hs & Hev).
    fold (run_fetch env (S k) w) in Hp, He, Hs, Hev.
    split; [exact Hp|]. split; [exact He|]. intros _. split; [exact Hs|].
    apply new_effects_app. rewrite Hev. cbn [effects]. now rewrite <- app_assoc.
Qed.

Lemma run_replay_by_fuel (env : Collaborators) (fuel : nat) (w : World)
  (c : Cache) (payload : string) (more : list string) (parsed : FeedParserDict) :
  cache (self w) = Some c ->
  Cache_retrieve c = payload :: more ->
  feedparser_parse env payload = Ok parsed ->
  let r := run_fetch_from_cache env fuel w in
  let wrapped := wrap_all env (entries parsed) in
  produced r = take fuel (fst wrapped)
  /\ ended r = (if (fuel <=? length (fst wrapped))%nat
                then Pending else ending_of (snd wrapped))
  /\ self (world_after r) = self w
  /\ (fuel <> 0%nat ->
      new_effects w (world_after r) = [CacheRetrieve; ParseFeed payload]).
Proof.
  intros Hc Hr Hp. cbn zeta. destruct fuel as [|k].
  - unfold run_fetch_from_cache. cbn [consume produced ended world_after take Nat.leb].
    repeat split; congruence.
  - assert (Hn : fetch_from_cache_next env MetaCreated w
                 = deliver env (fun es _ => ReplayYielding es) (fun _ => [])
                     (entries parsed) 0
                     (add_effects w [CacheRetrieve; ParseFeed payload])).
    { rewrite (proj1 (replay_next_created env w)). unfold first_replay_next.
      now rewrite Hc, Hr, Hp. }
    destruct (consume_deliver_fuel env (fetch_from_cache_next env)
                (fun es _ => ReplayYielding es) (fun _ => [])
                (fun es n w' => replay_next_yielding env es n w') k
                (entries parsed) 0 MetaCreated w _ Hn) as (Hpr & He & Hs & Hev).
    fold (run_fetch_from_cache env (S k) w) in Hpr, He, Hs, Hev.
    split; [exact Hpr|]. split; [exact He|]. split; [exact Hs|]. intros _.
    apply new_effects_app. rewrite Hev. cbn [add_effects effects].
    now destruct (ended (run_fetch_from_cache env (S k) w)); rewrite app_nil_r.
Qed.

(** ** The client *)

(** X1: [get_entries] makes exactly one request, to the URL of the client,
    whatever comes back, and leaves the backend object alone; it returns a
    text exactly when the request gave a response whose status is outside
    400..599, and the text is then the body of that response, unchanged. *)
Theorem X1_get_entries_contract (env : Collaborators) (c : RSSClient) (w : World) :
  let out := get_entries env c w in
  self (snd out) = self w
  /\ effects (snd out) = effects w ++ [HttpGet (client_url c)]
  /\ (forall body,
         fst out = Ok body <->
         exists req, requests_get env (client_url c) = Ok req
                     /\ text req = body
                     /\ (status_code req < 400 \/ 600 <= status_code req))
  /\ (forall req, requests_get env (client_url c) = Ok req ->
                  400 <= status_code req < 600 ->
                  fst out = Raise (HTTPError (status_code req))).
Proof.
  cbn zeta. rewrite get_entries_fetched. cbn [fst snd add_effects self effects].
  split; [reflexivity|]. split; [reflexivity|].
  unfold fetched, raise_for_status. split.
  - intros body. destruct (requests_get env (client_url c)) as [req|e].
    + destruct (Z.leb_spec 400 (status_code req)), (Z.ltb_spec (status_code req) 600);
        cbn [andb]; split;
        try (intros [= <-]; exists req; repeat split; lia);
        try (intros (req' & [= <-] & <- & Hs); first [reflexivity | lia]);
        try discriminate.
    + split; [discriminate|]. intros (req & Hreq & _). discriminate.
  - intros req -> [Hlo Hhi].
    destruct (Z.leb_spec 400 (status_code req)), (Z.ltb_spec (status_code req) 600);
      cbn [andb]; first [reflexivity | lia].
Qed.

Lemma X1_get_entries_contract_witness :
  fst (get_entries scenario_env {| client_url := "http://x/feed" |}
         (world_of "http://x/feed" None)) = Ok atom_feed
  /\ fst (get_entries
            {| requests_get := fun _ => Ok {| status_code := 404; text := "gone" |};
               feedparser_parse := feedparser_parse scenario_env;
               dateutil_parse := iso8601 |}
            {| client_url := "http://x/feed" |} (world_of "http://x/feed" None))
     = Raise (HTTPError 404).
Proof.
  split.
  - apply (proj1 (proj2 (proj2 (X1_get_entries_contract scenario_env
                                  {| client_url := "http://x/feed" |}
                                  (world_of "http://x/feed" None)))) atom_feed).
    exists {| status_code := 200; text := atom_feed |}.
    split; [reflexivity|]. split; [reflexivity|]. left. cbn. lia.
  - apply (proj2 (proj2 (proj2 (X1_get_entries_contract
                                  {| requests_get :=
                                       fun _ => Ok {| status_code := 404; text := "gone" |};
                                     feedparser_parse := feedparser_parse scenario_env;
                                     dateutil_parse := iso8601 |}
                                  {| client_url := "http://x/feed" |}
                                  (world_of "http://x/feed" None))))
             {| status_code := 404; text := "gone" |}); [reflexivity|cbn; lia].
Defined.

(** ** The live fetch, record by record *)

(** X2: a live fetch that runs to completion has retrieved and parsed the
    feed, has handed out one record per entry of the parsed feed, in the
    order of the feed, each with the entry itself nested under it and with
    the identifier, update time and category extracted from that entry, and
    has ended its trace with the log line that counts the entries. *)
Theorem X2_fetch_completed (env : Collaborators) (fuel : nat) (w : World) :
  let r := run_fetch env fuel w in
  ended r = Completed ->
  exists raw parsed,
    fetched env (client (self w)) = Ok raw
    /\ feedparser_parse env raw = Ok parsed
    /\ map data (produced r) = entries parsed
    /\ Forall (fun it => metadata_id (data it) = Ok (item_id it)
                         /\ metadata_updated_on env (data it) = Ok (updated_on it)
                         /\ category it = metadata_category (data it))
              (produced r)
    /\ new_effects w (world_after r)
       = flush_events (self w) raw ++ [closing_log (length (produced r))].
Proof.
  cbn zeta. intros Hend.
  destruct fuel as [|k]; [discriminate|].
  destruct (fetched env (client (self w))) as [raw|e] eqn:H1.
  2:{ rewrite (run_fetch_request_fails env k w e H1) in Hend. discriminate. }
  destruct (feedparser_parse env raw) as [parsed|e] eqn:H2.
  2:{ rewrite (run_fetch_parse_fails env k w raw e H1 H2) in Hend. discriminate. }
  destruct (run_fetch_by_fuel env (S k) w raw parsed H1 H2) as (Hp & He & Hrest).
  destruct (Hrest ltac:(discriminate)) as (_ & Hev). clear Hrest.
  rewrite Hend in Hev. rewrite Hend in He.
  destruct (Nat.leb_spec (S k) (length (fst (wrap_all env (entries parsed)))))
    as [Hle|Hgt]; [discriminate|].
  assert (Hnone : snd (wrap_all env (entries parsed)) = None).
  { destruct (snd (wrap_all env (entries parsed))); [discriminate|reflexivity]. }
  assert (Hall : produced (run_fetch env (S k) w) = fst (wrap_all env (entries parsed))).
  { rewrite Hp. apply take_ge. lia. }
  exists raw, parsed. split; [reflexivity|]. split; [exact H2|].
  rewrite Hall. split; [|split].
  - destruct (wrap_all_data env (entries parsed)) as (later & Hd & Hl).
    rewrite (Hl Hnone), app_nil_r in Hd. now symmetry.
  - apply wrap_all_fields.
  - rewrite Hev. now rewrite (wrap_all_length env _ Hnone).
Qed.

Lemma X2_fetch_completed_witness :
  let r := run_fetch scenario_env 3 (world_of "http://x/feed" None) in
  map data (produced r) = [entry_1; entry_2]
  /\ new_effects (world_of "http://x/feed" None) (world_after r)
     = flush_events (self (world_of "http://x/feed" None)) atom_feed ++ [closing_log 2].
Proof.
  cbn zeta.
  destruct (X2_fetch_completed scenario_env 3 (world_of "http://x/feed" None))
    as (raw & parsed & H1 & H2 & Hd & _ & Hev); [reflexivity|].
  assert (Hraw : raw = atom_feed) by (revert H1; vm_compute; congruence).
  subst raw.
  assert (Hparsed : entries parsed = [entry_1; entry_2]).
  { revert H2. vm_compute. intros [= <-]. reflexivity. }
  split; [now rewrite Hd|]. rewrite Hev. reflexivity.
Defined.

(** X3: a live fetch hands its records out one call at a time: once the
    feed has been retrieved and parsed, a consumer that makes [fuel] calls
    of [next] has received the records of the first [fuel] entries (of all
    the entries before the first one whose metadata cannot be extracted, if
    those are fewer); the cache is flushed by then, however early the
    consumer stops; and the closing log line is written only if the
    generator was run to its end. *)
Theorem X3_fetch_streams (env : Collaborators) (fuel : nat) (w : World)
  (raw : string) (parsed : FeedParserDict) :
  fetched env (client (self w)) = Ok raw ->
  feedparser_parse env raw = Ok parsed ->
  fuel <> 0%nat ->
  let r := run_fetch env fuel w in
  let wrapped := fst (wrap_all env (entries parsed)) in
  produced r = take fuel wrapped
  /\ (ended r = Pending <-> (fuel <= length wrapped)%nat)
  /\ self (world_after r) = flushed (self w) raw
  /\ (In (closing_log (length (entries parsed))) (new_effects w (world_after r))
      <-> ended r = Completed).
Proof.
  intros H1 H2 Hfuel. cbn zeta.
  destruct (run_fetch_by_fuel env fuel w raw parsed H1 H2) as (Hp & He & Hrest).
  destruct (Hrest Hfuel) as (Hs & Hev). clear Hrest.
  split; [exact Hp|]. split; [|split; [exact Hs|]].
  - rewrite He.
    destruct (Nat.leb_spec fuel (length (fst (wrap_all env (entries parsed)))));
      split; auto; try lia.
    destruct (snd (wrap_all env (entries parsed))); discriminate.
  - rewrite Hev.
    assert (Hno : ~ In (closing_log (length (entries parsed))) (flush_events (self w) raw)).
    { unfold flush_events, parse_events, request_events. cbn [app In].
      intros [H|[H|[H|[H|[H|[H|[]]]]]]]; discriminate. }
    destruct (ended (run_fetch env fuel w)); rewrite ?app_nil_r; split;
      try reflexivity; try discriminate; try (intros H; now apply Hno in H).
    intros _. apply in_or_app. right. now left.
Qed.

Lemma X3_fetch_streams_witness :
  let w := world_of "http://x/feed" (Some empty_cache) in
  let r := run_fetch scenario_env 1 w in
  map item_id (produced r) = ["http://x/1"%string]
  /\ ended r = Pending
  /\ cache (self (world_after r)) = Some {| committed := [atom_feed] |}.
Proof.
  cbn zeta.
  destruct (X3_fetch_streams scenario_env 1 (world_of "http://x/feed" (Some empty_cache))
              atom_feed {| entries := [entry_1; entry_2]; bozo := false |})
    as (Hp & He & Hs & _); [reflexivity|reflexivity|lia|].
  split; [now rewrite Hp|]. split; [apply He; vm_compute; lia|now rewrite Hs].
Defined.

(** ** The replay *)

(** X4: a replay gives back what the live fetch gave: after a live fetch
    on a backend with a cache has retrieved and parsed the feed, a replay
    hands out, call for call, the records that a live fetch hands out and
    ends the same way, and all it does is one retrieve and one parse of the
    payload that the live fetch committed. *)
Theorem X4_replay_after_fetch (env : Collaborators) (fuel1 fuel : nat) (w : World)
  (c : Cache) (raw : string) (parsed : FeedParserDict) :
  cache (self w) = Some c ->
  fetched env (client (self w)) = Ok raw ->
  feedparser_parse env raw = Ok parsed ->
  fuel1 <> 0%nat ->
  let r1 := run_fetch env fuel1 w in
  let r2 := run_fetch_from_cache env fuel (world_after r1) in
  produced r2 = produced (run_fetch env fuel w)
  /\ ended r2 = ended (run_fetch env fuel w)
  /\ (fuel <> 0%nat ->
      new_effects (world_after r1) (world_after r2) = [CacheRetrieve; ParseFeed raw]).
Proof.
  intros Hc H1 H2 Hfuel1. cbn zeta.
  destruct (run_fetch_by_fuel env fuel1 w raw parsed H1 H2) as (_ & _ & Hrest).
  destruct (Hrest Hfuel1) as (Hs & _). clear Hrest.
  assert (Hc' : cache (self (world_after (run_fetch env fuel1 w)))
                = Some (Cache_store c [raw])).
  { rewrite Hs. unfold flushed. now rewrite Hc. }
  destruct (run_replay_by_fuel env fuel _ _ raw [] parsed Hc' eq_refl H2)
    as (Hp & He & _ & Hev).
  destruct (run_fetch_by_fuel env fuel w raw parsed H1 H2) as (Hp' & He' & _).
  rewrite Hp, He, Hp', He'. repeat split. exact Hev.
Qed.

Lemma X4_replay_after_fetch_witness :
  let w := world_of "http://x/feed" (Some empty_cache) in
  let r1 := run_fetch scenario_env 3 w in
  let r2 := run_fetch_from_cache scenario_env 3 (world_after r1) in
  produced r2 = produced r1 /\ ended r2 = Completed.
Proof.
  cbn zeta.
  destruct (X4_replay_after_fetch scenario_env 3 3
              (world_of "http://x/feed" (Some empty_cache)) empty_cache
              atom_feed {| entries := [entry_1; entry_2]; bozo := false |})
    as (Hp & He & _); [reflexivity|reflexivity|reflexivity|lia|].
  split; [exact Hp|]. rewrite He. reflexivity.
Defined.

Lemma run_replay_effects (env : Collaborators) (fuel : nat) (w : World) :
  let evs := new_effects w (world_after (run_fetch_from_cache env fuel w)) in
  evs = []
  \/ evs = [CacheRetrieve]
  \/ exists c payload more,
       cache (self w) = Some c
       /\ Cache_retrieve c = payload :: more
       /\ evs = [CacheRetrieve; ParseFeed payload].
Proof.
  cbn zeta. destruct fuel as [|k].
  { left. unfold run_fetch_from_cache. cbn [consume world_after].
    unfold new_effects. apply drop_all. }
  destruct (cache (self w)) as [c|] eqn:Hc.
  - destruct (Cache_retrieve c) as [|payload more] eqn:Hr.
    + right. left. unfold run_fetch_from_cache. rewrite consume_step.
      rewrite (proj1 (replay_next_created env w)). unfold first_replay_next.
      rewrite Hc, Hr. cbn [world_after]. apply new_effects_add.
    + right. right. exists c, payload, more. split; [reflexivity|]. split; [exact Hr|].
      destruct (feedparser_parse env payload) as [parsed|e] eqn:Hp.
      * now apply (run_replay_by_fuel env (S k) w c payload more parsed Hc Hr Hp).
      * unfold run_fetch_from_cache. rewrite consume_step.
        rewrite (proj1 (replay_next_created env w)). unfold first_replay_next.
        rewrite Hc, Hr, Hp. cbn [world_after]. apply new_effects_add.
  - left. unfold run_fetch_from_cache. rewrite consume_step.
    rewrite (proj1 (replay_next_created env w)). unfold first_replay_next.
    rewrite Hc. cbn [world_after]. unfold new_effects. apply drop_all.
Qed.

(** X5: a replay never sends a request, never purges, pushes to or flushes
    the cache queue and logs nothing: whatever the cache holds and however
    the replay ends, all it adds to the trace is at most one retrieve on
    the cache, followed at most by one parse of the first payload
    retrieved. *)
Theorem X5_replay_effects (env : Collaborators) (fuel : nat) (w : World) :
  let evs := new_effects w (world_after (run_fetch_from_cache env fuel w)) in
  evs = []
  \/ evs = [CacheRetrieve]
  \/ exists c payload more,
       cache (self w) = Some c
       /\ Cache_retrieve c = payload :: more
       /\ evs = [CacheRetrieve; ParseFeed payload].
Proof. apply run_replay_effects. Qed.

(** X6: a replay reads the first payload that the cache retrieves and no
    other: two backends whose caches retrieve the same first payload (or
    both none) replay the same records and end the same way, whatever else
    the caches hold. *)
Theorem X6_replay_reads_first_payload (env : Collaborators) (fuel : nat)
  (w1 w2 : World) (c1 c2 : Cache) :
  cache (self w1) = Some c1 ->
  cache (self w2) = Some c2 ->
  head (Cache_retrieve c1) = head (Cache_retrieve c2) ->
  produced (run_fetch_from_cache env fuel w1) = produced (run_fetch_from_cache env fuel w2)
  /\ ended (run_fetch_from_cache env fuel w1) = ended (run_fetch_from_cache env fuel w2).
Proof.
  intros Hc1 Hc2 Hh. destruct fuel as [|k]; [split; reflexivity|].
  destruct (Cache_retrieve c1) as [|p1 more1] eqn:Hr1;
    destruct (Cache_retrieve c2) as [|p2 more2] eqn:Hr2; try discriminate.
  - unfold run_fetch_from_cache. rewrite !consume_step.
    rewrite (proj1 (replay_next_created env w1)), (proj1 (replay_next_created env w2)).
    unfold first_replay_next. rewrite Hc1, Hc2, Hr1, Hr2. split; reflexivity.
  - injection Hh as <-.
    destruct (feedparser_parse env p1) as [parsed|e] eqn:Hp.
    + destruct (run_replay_by_fuel env (S k) w1 c1 p1 more1 parsed Hc1 Hr1 Hp)
        as (Hp1 & He1 & _).
      destruct (run_replay_by_fuel env (S k) w2 c2 p1 more2 parsed Hc2 Hr2 Hp)
        as (Hp2 & He2 & _).
      rewrite Hp1, He1, Hp2, He2. split; reflexivity.
    + unfold run_fetch_from_cache. rewrite !consume_step.
      rewrite (proj1 (replay_next_created env w1)), (proj1 (replay_next_created env w2)).
      unfold first_replay_next. rewrite Hc1, Hc2, Hr1, Hr2, Hp. split; reflexivity.
Qed.

Lemma X6_replay_reads_first_payload_witness :
  produced (run_fetch_from_cache scenario_env 3
              (world_of "http://x/feed" (Some {| committed := [atom_feed; undated_feed] |})))
  = produced (run_fetch_from_cache scenario_env 3 (world_of "http://x/feed" (Some old_cache))).
Proof.
  apply (proj1 (X6_replay_reads_first_payload scenario_env 3
                  (world_of "http://x/feed" (Some {| committed := [atom_feed; undated_feed] |}))
                  (world_of "http://x/feed" (Some old_cache))
                  {| committed := [atom_feed; undated_feed] |} old_cache
                  eq_refl eq_refl eq_refl)).
Defined.

(** ** Update times follow the calendar *)

Lemma days_before_year_mono (a b : Z) : a <= b -> days_before_year a <= days_before_year b.
Proof. unfold days_before_year. cbn zeta. intros H. Z.div_mod_to_equations. lia. Qed.

Lemma day_of_year_bounds (y m d : Z) :
  1 <= m <= 12 -> 1 <= d <= days_in_month y m ->
  1 <= days_before_month y m + d <= year_length y.
Proof.
  intros Hm.
  assert (H : m = 1 \/ m = 2 \/ m = 3 \/ m = 4 \/ m = 5 \/ m = 6 \/ m = 7 \/ m = 8
              \/ m = 9 \/ m = 10 \/ m = 11 \/ m = 12) by lia.
  unfold days_before_month, days_in_month, year_length.
  repeat (destruct H as [->|H]); try subst m;
    match goal with
    | |- context [Z.to_nat ?e] =>
        let n := eval vm_compute in (Z.to_nat e) in change (Z.to_nat e) with n
    end;
    generalize (is_leap y); intros []; cbn; lia.
Qed.

Lemma month_day_lt (y m1 d1 m2 d2 : Z) :
  1 <= m1 -> m1 < m2 -> m2 <= 12 ->
  d1 <= days_in_month y m1 -> 1 <= d2 ->
  days_before_month y m1 + d1 < days_before_month y m2 + d2.
Proof.
  intros H1 H12 H2.
  assert (Ha : m1 = 1 \/ m1 = 2 \/ m1 = 3 \/ m1 = 4 \/ m1 = 5 \/ m1 = 6 \/ m1 = 7 \/ m1 = 8
              \/ m1 = 9 \/ m1 = 10 \/ m1 = 11) by lia.
  assert (Hb : m2 = 2 \/ m2 = 3 \/ m2 = 4 \/ m2 = 5 \/ m2 = 6 \/ m2 = 7 \/ m2 = 8
              \/ m2 = 9 \/ m2 = 10 \/ m2 = 11 \/ m2 = 12) by lia.
  unfold days_before_month, days_in_month.
  repeat (destruct Ha as [->|Ha]); try subst m1;
    repeat (destruct Hb as [->|Hb]); try subst m2; try lia;
    repeat match goal with
    | |- context [Z.to_nat ?e] =>
        let n := eval vm_compute in (Z.to_nat e) in change (Z.to_nat e) with n
    end;
    generalize (is_leap y); intros []; cbn; lia.
Qed.

Lemma toordinal_lt (a b : datetime) :
  valid_date a = true -> valid_date b = true ->
  year a < year b
  \/ (year a = year b
      /\ (month a < month b \/ (month a = month b /\ day a < day b))) ->
  toordinal a < toordinal b.
Proof.
  unfold valid_date. rewrite !andb_true_iff, !Z.leb_le.
  intros ((((Hya & Hma1) & Hma2) & Hda1) & Hda2) ((((Hyb & Hmb1) & Hmb2) & Hdb1) & Hdb2).
  unfold toordinal, ymd2ord.
  pose proof (day_of_year_bounds (year a) (month a) (day a)) as Ba.
  pose proof (day_of_year_bounds (year b) (month b) (day b)) as Bb.
  intros [Hy|(Hy & [Hm|(Hm & Hd)])].
  - pose proof (days_before_year_succ (year a)) as Hs.
    pose proof (days_before_year_mono (year a + 1) (year b)) as Hmono. lia.
  - rewrite Hy in *.
    pose proof (month_day_lt (year b) (month a) (day a) (month b) (day b)). lia.
  - rewrite Hy, Hm in *. lia.
Qed.

Lemma toordinal_range (dt : datetime) :
  valid_date dt = true -> year dt <= 9999 -> 1 <= toordinal dt <= 3652060.
Proof.
  unfold valid_date. rewrite !andb_true_iff, !Z.leb_le.
  intros ((((Hy & Hm1) & Hm2) & Hd1) & Hd2) Hmax.
  pose proof (day_of_year_bounds (year dt) (month dt) (day dt)) as Hb.
  pose proof (days_before_year_mono 1 (year dt) Hy) as Hlo.
  pose proof (days_before_year_mono (year dt) 9999 Hmax) as Hhi.
  change (days_before_year 1) with 0 in Hlo.
  change (days_before_year 9999) with 3651694 in Hhi.
  unfold toordinal, ymd2ord, year_length in *.
  destruct (is_leap (year dt)); lia.
Qed.

(** The timestamp of a whole second in the range of Python's dates is the
    number of seconds itself. *)
Lemma timestamp_whole_second (dt : datetime) :
  valid_date dt = true -> valid_time dt = true -> valid_range dt = true ->
  microsecond dt = 0 ->
  timestamp dt
  = Qmake ((toordinal dt - toordinal EPOCH) * 86400 + seconds_of_day dt - utcoffset dt) 1.
Proof.
  intros Hv Ht Hr Hus.
  unfold valid_range in Hr. rewrite !andb_true_iff, Z.leb_le, !Z.ltb_lt in Hr.
  destruct Hr as [[Hy Ho1] Ho2].
  pose proof (toordinal_range dt Hv Hy) as Hord.
  unfold valid_time in Ht. rewrite !andb_true_iff, !Z.leb_le, !Z.ltb_lt in Ht.
  unfold timestamp, datetime_sub_us. rewrite Hus.
  change (toordinal EPOCH) with 719163 in *.
  change (seconds_of_day EPOCH) with 0. change (utcoffset EPOCH) with 0.
  change (microsecond EPOCH) with 0.
  replace ((toordinal dt - 719163) * 86400 + (seconds_of_day dt - 0) + (0 - utcoffset dt))
    with ((toordinal dt - 719163) * 86400 + seconds_of_day dt - utcoffset dt) by ring.
  rewrite Z.sub_0_r, Z.add_0_r.
  apply true_divide_exact; [lia|].
  unfold seconds_of_day. change (2 ^ 53) with 9007199254740992. lia.
Qed.

(** X7: update times follow the calendar: of two entries whose [published]
    dates are whole seconds in the range of Python's dates, written with
    the same offset from UTC, the one whose date reads earlier, field by
    field from the year down to the second, gets the strictly smaller
    update time. *)
Theorem X7_updated_on_follows_calendar (env : Collaborators) (item1 item2 : Entry)
  (s1 s2 : string) (dt1 dt2 : datetime) :
  item1 !! "published" = Some (VStr s1) ->
  item2 !! "published" = Some (VStr s2) ->
  dateutil_parse env s1 = Some dt1 ->
  dateutil_parse env s2 = Some dt2 ->
  valid_date dt1 = true -> valid_time dt1 = true -> valid_range dt1 = true ->
  valid_date dt2 = true -> valid_time dt2 = true -> valid_range dt2 = true ->
  microsecond dt1 = 0 -> microsecond dt2 = 0 ->
  utcoffset dt1 = utcoffset dt2 ->
  earlier dt1 dt2 ->
  exists t1 t2,
    metadata_updated_on env item1 = Ok t1
    /\ metadata_updated_on env item2 = Ok t2
    /\ (t1 < t2)%Q.
Proof.
  intros Hp1 Hp2 Hd1 Hd2 Hv1 Ht1 Hr1 Hv2 Ht2 Hr2 Hus1 Hus2 Hoff Hlt.
  exists (timestamp dt1), (timestamp dt2).
  unfold metadata_updated_on, getitem, str_to_datetime.
  rewrite Hp1, Hp2, Hd1, Hd2. split; [reflexivity|]. split; [reflexivity|].
  rewrite (timestamp_whole_second dt1 Hv1 Ht1 Hr1 Hus1).
  rewrite (timestamp_whole_second dt2 Hv2 Ht2 Hr2 Hus2).
  unfold Qlt. cbn [Qnum Qden]. rewrite !Z.mul_1_r.
  unfold seconds_of_day. rewrite Hoff.
  pose proof (toordinal_lt dt1 dt2 Hv1 Hv2) as Hord.
  unfold valid_time in Ht1, Ht2.
  rewrite !andb_true_iff, !Z.leb_le, !Z.ltb_lt in Ht1, Ht2.
  unfold earlier in Hlt.
  assert (Hcases : toordinal dt1 < toordinal dt2
                   \/ (toordinal dt1 = toordinal dt2
                       /\ (hour dt1 < hour dt2
                           \/ (hour dt1 = hour dt2
                               /\ (minute dt1 < minute dt2
                                   \/ (minute dt1 = minute dt2
                                       /\ second dt1 < second dt2)))))).
  { destruct Hlt as [Hy|(Hy & [Hm|(Hm & [Hd|(Hd & Hrest)])])].
    - left. apply Hord. now left.
    - left. apply Hord. right. split; [exact Hy|]. now left.
    - left. apply Hord. right. split; [exact Hy|]. right. now split.
    - right. split; [unfold toordinal; now rewrite Hy, Hm, Hd|]. lia. }
  lia.
Qed.

Lemma X7_updated_on_follows_calendar_witness :
  exists t1 t2,
    metadata_updated_on scenario_env entry_1 = Ok t1
    /\ metadata_updated_on scenario_env entry_2 = Ok t2
    /\ (t1 < t2)%Q.
Proof.
  apply (X7_updated_on_follows_calendar scenario_env entry_1 entry_2
           "2020-01-01T00:00:00Z" "2020-01-02T00:00:00Z"
           {| year := 2020; month := 1; day := 1; hour := 0; minute := 0; second := 0;
              microsecond := 0; utcoffset := 0 |}
           {| year := 2020; month := 1; day := 2; hour := 0; minute := 0; second := 0;
              microsecond := 0; utcoffset := 0 |});
    try reflexivity.
  unfold earlier. cbn. lia.
Defined.

(* ================================================================== *)
(** * The command *)
(* ================================================================== *)

Lemma write_items_step {F : Type} (fmt : Formatting)
  (next : F -> World -> next_result Item * F * World)
  (k : nat) (f : F) (w : World) (out : list string) :
  write_items fmt next (S k) f w out
  = match next f w with
    | (Yielded item, f', w') =>
        match json_dumps fmt item with
        | Ok obj =>
            match file_write fmt out obj with
            | Ok _ =>
                match file_write fmt (out ++ [obj]) newline with
                | Ok _ => write_items fmt next k f' w' (out ++ [obj; newline])
                | Raise e => (Failed e, w', out ++ [obj])
                end
            | Raise e => (Failed e, w', out)
            end
        | Raise e => (Failed e, w', out)
        end
    | (Exhausted, _, w') => (Completed, w', out)
    | (Raised e, _, w') => (Failed e, w', out)
    end.
Proof. reflexivity. Qed.

(** The loop of [run] leaves the world as some number of calls of [next]
    leaves it, at least one call if it has fuel. *)
Lemma write_items_world {F : Type} (fmt : Formatting)
  (next : F -> World -> next_result Item * F * World) (fuel : nat) :
  forall (f : F) (w : World) (out : list string),
    exists n, (fuel <> 0%nat -> n <> 0%nat)
              /\ snd (fst (write_items fmt next fuel f w out))
                 = world_after (consume next n f w).
Proof.
  induction fuel as [|k IH]; intros f w out.
  - exists 0%nat. split; [congruence|reflexivity].
  - rewrite write_items_step.
    destruct (next f w) as [[[item| |e] f'] w'] eqn:Hn.
    + destruct (json_dumps fmt item) as [obj|e];
        [destruct (file_write fmt out obj) as [[]|e];
         [destruct (file_write fmt (out ++ [obj]) newline) as [[]|e]|]|];
        try (exists 1%nat; split; [discriminate|]; rewrite consume_step, Hn; reflexivity).
      destruct (IH f' w' (out ++ [obj; newline])) as (n & _ & Hw).
      exists (S n). split; [discriminate|]. rewrite consume_step, Hn. exact Hw.
    + exists 1%nat. split; [discriminate|]. rewrite consume_step, Hn. reflexivity.
    + exists 1%nat. split; [discriminate|]. rewrite consume_step, Hn. reflexivity.
Qed.

Section CommandLoop.

Context {F : Type}.
Variable env : Collaborators.
Variable fmt : Formatting.
Variable next : metadata_frame F -> World -> next_result Item * metadata_frame F * World.
Variable yielding : list Entry -> nat -> F.
Variable closing : nat -> list event.

Hypothesis next_yielding : forall es n w,
  next (MetaIterating (yielding es n)) w = deliver env yielding closing es (S n) w.

Hypothesis writes : forall out chunk, file_write fmt out chunk = Ok tt.

(** With every envelope dumped and every write done, the loop writes the
    dumps in order, a newline after each, and ends as the generator
    ends. *)
Lemma write_items_deliver (es : list Entry) :
  forall (count k : nat) (f : metadata_frame F) (w0 w : World)
         (out objs : list string),
    next f w0 = deliver env yielding closing es count w ->
    Forall2 (fun it obj => json_dumps fmt it = Ok obj) (fst (wrap_all env es)) objs ->
    (length (fst (wrap_all env es)) <= k)%nat ->
    write_items fmt next (S k) f w0 out
    = (ending_of (snd (wrap_all env es)),
       match snd (wrap_all env es) with
       | Some _ => w
       | None => add_effects w (closing (count + length es)%nat)
       end,
       out ++ written objs).
Proof.
  induction es as [|e rest IH]; intros count k f w0 w out objs Hf Hd Hk;
    rewrite write_items_step, Hf; unfold deliver.
  - cbn [wrap_all fst snd] in *. inversion Hd; subst.
    cbn [ending_of length written flat_map]. now rewrite Nat.add_0_r, app_nil_r.
  - cbn [wrap_all] in *. destruct (envelope env e) as [it|x]; cbn [fst snd length] in *.
    + inversion Hd as [|? obj ? objs' Hobj Hrest]; subst. rewrite Hobj.
      rewrite !writes.
      destruct k as [|k]; [lia|].
      rewrite (IH (S count) k _ w w _ objs'); [|apply next_yielding|exact Hrest|lia].
      rewrite Nat.add_succ_r. unfold written. cbn [flat_map app].
      now rewrite <- app_assoc.
    + inversion Hd; subst. cbn [ending_of written flat_map]. now rewrite app_nil_r.
Qed.

End CommandLoop.

Lemma envelope_raises (env : Collaborators) (entry : Entry) (e : exn) :
  envelope env entry = Raise e ->
  escaping e = e /\ is_HTTPError e = false /\ is_IOError e = false.
Proof.
  unfold envelope, metadata_id, metadata_updated_on, getitem, str_to_datetime.
  destruct (entry !! "link"); [|intros [= <-]; auto].
  destruct (entry !! "published") as [[| | |s]|]; try (intros [= <-]; auto).
  destruct (dateutil_parse env s); [discriminate|]. intros [= <-]. auto.
Qed.

(** X8: a live [run] whose feed is retrieved and parsed, whose entries all
    have their metadata, whose records can all be dumped and whose output
    file takes every write returns normally after writing, for every entry
    in the order of the feed, the dump of its record followed by a newline,
    and nothing else; it calls nothing on the cache besides the flush of
    the fetch. *)
Theorem X8_run_writes_records (env : Collaborators) (cls : CacheClass)
  (fmt : Formatting) (fuel : nat) (cmd : RSSCommand)
  (raw : string) (parsed : FeedParserDict) (objs : list string) :
  fetch_cache (parsed_args cmd) = false ->
  fetched env (client (self (backend cmd))) = Ok raw ->
  feedparser_parse env raw = Ok parsed ->
  snd (wrap_all env (entries parsed)) = None ->
  Forall2 (fun it obj => json_dumps fmt it = Ok obj)
          (fst (wrap_all env (entries parsed))) objs ->
  (forall out chunk, file_write fmt out chunk = Ok tt) ->
  (length (entries parsed) < fuel)%nat ->
  let out := RSSCommand_run env cls fmt fuel cmd in
  fst out = Returned
  /\ outfile (snd out) = outfile cmd ++ written objs
  /\ length objs = length (entries parsed)
  /\ cache_calls (snd out) = cache_calls cmd
  /\ self (backend (snd out)) = flushed (self (backend cmd)) raw.
Proof.
  intros Hlive H1 H2 Hnone Hd Hwrites Hfuel. cbn zeta.
  destruct fuel as [|k]; [lia|].
  unfold RSSCommand_run. rewrite Hlive.
  rewrite (write_items_deliver env fmt (fetch_next env) FetchYielding
             (fun n => [closing_log n]) (fetch_next_yielding env) Hwrites
             (entries parsed) 0 k MetaCreated (backend cmd) _ (outfile cmd) objs
             (fetch_next_parsed env (backend cmd) raw parsed H1 H2) Hd);
    [|rewrite (wrap_all_length env _ Hnone); lia].
  rewrite Hnone. cbn [ending_of fst snd with_run outfile cache_calls backend
                      add_effects self].
  repeat split.
  rewrite <- (wrap_all_length env _ Hnone). symmetry. exact (Forall2_length _ _ _ Hd).
Qed.

Lemma X8_run_writes_records_witness :
  let cmd := RSSCommand_init scenario_cache_class "/home/u"
               (scenario_args "http://x/feed" false false) [] in
  let out := RSSCommand_run scenario_env scenario_cache_class scenario_formatting 3 cmd in
  fst out = Returned
  /\ outfile (snd out) = ["http://x/1"; newline; "http://x/2"; newline]%string.
Proof.
  cbn zeta.
  destruct (X8_run_writes_records scenario_env scenario_cache_class scenario_formatting 3
              (RSSCommand_init scenario_cache_class "/home/u"
                 (scenario_args "http://x/feed" false false) [])
              atom_feed {| entries := [entry_1; entry_2]; bozo := false |}
              ["http://x/1"; "http://x/2"]%string)
    as (Hret & Hout & _); try reflexivity.
  - vm_compute. repeat constructor.
  - vm_compute. lia.
  - split; [exact Hret|exact Hout].
Defined.

(** X9: when, in a live [run] whose output file takes every write, the
    metadata of an entry cannot be extracted, the dumps of the records of
    the entries before it, which can be dumped, have been written, [run]
    raises a [RuntimeError] that carries the text of the
    exception and, if the backend has a cache, it has called [recover] on
    that cache, once, after the flush of the fetch had committed the
    payload; without a cache nothing is called. *)
Theorem X9_run_recovers_after_metadata_failure (env : Collaborators) (cls : CacheClass)
  (fmt : Formatting) (fuel : nat) (cmd : RSSCommand)
  (raw : string) (parsed : FeedParserDict)
  (good : list Entry) (bad : Entry) (rest : list Entry)
  (objs : list string) (e : exn) :
  fetch_cache (parsed_args cmd) = false ->
  fetched env (client (self (backend cmd))) = Ok raw ->
  feedparser_parse env raw = Ok parsed ->
  entries parsed = good ++ bad :: rest ->
  snd (wrap_all env good) = None ->
  Forall2 (fun it obj => json_dumps fmt it = Ok obj) (fst (wrap_all env good)) objs ->
  (forall out chunk, file_write fmt out chunk = Ok tt) ->
  envelope env bad = Raise e ->
  (length good < fuel)%nat ->
  let out := RSSCommand_run env cls fmt fuel cmd in
  fst out = RaisedRuntimeError (exn_str fmt e)
  /\ outfile (snd out) = outfile cmd ++ written objs
  /\ match cache (self (backend cmd)) with
     | Some c =>
         cache_calls (snd out) = cache_calls cmd ++ [CalledRecover]
         /\ cache (self (backend (snd out)))
            = Some (Cache_recover cls (Cache_store c [raw]))
     | None =>
         cache_calls (snd out) = cache_calls cmd
         /\ cache (self (backend (snd out))) = None
     end.
Proof.
  intros Hlive H1 H2 Hes Hgood Hd Hwrites Hbad Hfuel. cbn zeta.
  destruct fuel as [|k]; [lia|].
  destruct (envelope_raises env bad e Hbad) as (Hesc & Hhttp & Hio).
  pose proof (wrap_all_stops env good bad rest e Hgood Hbad) as Hw.
  rewrite <- Hes, Hesc in Hw.
  unfold RSSCommand_run. rewrite Hlive.
  rewrite (write_items_deliver env fmt (fetch_next env) FetchYielding
             (fun n => [closing_log n]) (fetch_next_yielding env) Hwrites
             (entries parsed) 0 k MetaCreated (backend cmd) _ (outfile cmd) objs
             (fetch_next_parsed env (backend cmd) raw parsed H1 H2)).
  - rewrite Hw. cbn [ending_of fst snd self]. rewrite Hhttp, Hio.
    unfold flushed. destruct (cache (self (backend cmd))) as [c|] eqn:Hc;
      cbn [cache with_cache with_cache_queue fst snd with_run outfile cache_calls
           backend self]; rewrite ?Hc;
      cbn [cache with_cache with_cache_queue fst snd with_run outfile cache_calls
           backend self]; repeat split; exact Hc.
  - rewrite Hw. exact Hd.
  - rewrite Hw. cbn [fst]. rewrite (wrap_all_length env _ Hgood). lia.
Qed.

Lemma X9_run_recovers_after_metadata_failure_witness :
  let cmd := RSSCommand_init scenario_cache_class "/home/u"
               (scenario_args "http://x/undated" false false) [] in
  let out := RSSCommand_run scenario_env scenario_cache_class scenario_formatting 3 cmd in
  fst out = RaisedRuntimeError "'published'"
  /\ outfile (snd out) = ["http://x/1"; newline]%string
  /\ cache_calls (snd out)
     = [CalledNew "/home/u/.perceval/cache/http://x/undated"; CalledBackup; CalledRecover].
Proof.
  cbn zeta.
  destruct (X9_run_recovers_after_metadata_failure scenario_env scenario_cache_class
              scenario_formatting 3
              (RSSCommand_init scenario_cache_class "/home/u"
                 (scenario_args "http://x/undated" false false) [])
              undated_feed {| entries := [entry_1; entry_undated]; bozo := false |}
              [entry_1] entry_undated [] ["http://x/1"%string] (KeyError "published"))
    as (Hret & Hout & Hcalls); try reflexivity.
  - vm_compute. repeat constructor.
  - vm_compute. lia.
  - split; [exact Hret|]. split; [exact Hout|]. exact (proj1 Hcalls).
Defined.

(** X10: when, in a live [run], the request fails, nothing is written and
    [recover] is not called, the cache being as it was: for an error status
    [run] raises an [HTTPError] with the text of the JSON body of the
    response, or lets escape what reading that body raises; for a
    connection failure, which is an [IOError], it raises a [RuntimeError]
    with the text of the failure. *)
Theorem X10_run_request_failures (env : Collaborators) (cls : CacheClass)
  (fmt : Formatting) (fuel : nat) (cmd : RSSCommand) :
  fetch_cache (parsed_args cmd) = false ->
  fuel <> 0%nat ->
  let out := RSSCommand_run env cls fmt fuel cmd in
  let target := client_url (client (self (backend cmd))) in
  ((forall req, requests_get env target = Ok req ->
                400 <= status_code req < 600 ->
                fst out = match response_json fmt (HTTPError (status_code req)) with
                          | Ok msg => RaisedHTTPError msg
                          | Raise e' => Escaped e'
                          end)
   /\ (requests_get env target = Raise ConnectionError ->
       fst out = RaisedRuntimeError (exn_str fmt ConnectionError)))
  /\ ((exists req, requests_get env target = Ok req /\ 400 <= status_code req < 600)
      \/ requests_get env target = Raise ConnectionError ->
      outfile (snd out) = outfile cmd
      /\ cache_calls (snd out) = cache_calls cmd
      /\ cache (self (backend (snd out))) = cache (self (backend cmd))).
Proof.
  intros Hlive Hfuel. cbn zeta. destruct fuel as [|k]; [congruence|].
  unfold RSSCommand_run. rewrite Hlive, write_items_step, fetch_next_created.
  unfold first_fetch_next, fetched, raise_for_status.
  split; [split|].
  - intros req Hreq [Hlo Hhi]. rewrite Hreq.
    destruct (Z.leb_spec 400 (status_code req)); [|lia].
    destruct (Z.ltb_spec (status_code req) 600); [|lia].
    cbn [andb fst snd escaping is_HTTPError].
    now destruct (response_json fmt (HTTPError (status_code req))).
  - intros Hreq. rewrite Hreq. reflexivity.
  - intros [(req & Hreq & Hlo & Hhi)|Hreq]; rewrite Hreq.
    + destruct (Z.leb_spec 400 (status_code req)); [|lia].
      destruct (Z.ltb_spec (status_code req) 600); [|lia].
      cbn [andb fst snd escaping is_HTTPError].
      destruct (response_json fmt (HTTPError (status_code req))); repeat split.
    + repeat split.
Qed.

Lemma X10_run_request_failures_witness :
  fst (RSSCommand_run missing_env scenario_cache_class scenario_formatting 3
         (RSSCommand_init scenario_cache_class "/home/u"
            (scenario_args "http://x/feed" false false) []))
  = RaisedHTTPError "{'detail': 'not found'}"
  /\ fst (RSSCommand_run offline_env scenario_cache_class scenario_formatting 3
            (RSSCommand_init scenario_cache_class "/home/u"
               (scenario_args "http://x/feed" false false) []))
     = RaisedRuntimeError "error".
Proof.
  split.
  - refine (proj1 (proj1 (X10_run_request_failures missing_env scenario_cache_class
                            scenario_formatting 3
                            (RSSCommand_init scenario_cache_class "/home/u"
                               (scenario_args "http://x/feed" false false) [])
                            eq_refl _))
              {| status_code := 404; text := "not found" |} eq_refl _);
      [discriminate|cbn; lia].
  - refine (proj2 (proj1 (X10_run_request_failures offline_env scenario_cache_class
                            scenario_formatting 3
                            (RSSCommand_init scenario_cache_class "/home/u"
                               (scenario_args "http://x/feed" false false) [])
                            eq_refl _)) eq_refl).
    discriminate.
Defined.

(** X11: a command made with the cache switched off and asked to fetch
    from the cache fails as soon as it runs: [run] raises a [RuntimeError]
    with the text of the [CacheError] "cache instance was not provided",
    having written nothing, requested nothing and called nothing on any
    cache. *)
Theorem X11_run_replay_without_cache (env : Collaborators) (cls : CacheClass)
  (fmt : Formatting) (userhome : string) (args : ParsedArgs)
  (out0 : list string) (fuel : nat) :
  no_cache args = true ->
  fetch_cache args = true ->
  fuel <> 0%nat ->
  let cmd := RSSCommand_init cls userhome args out0 in
  cache (self (backend cmd)) = None
  /\ cache_calls cmd = []
  /\ RSSCommand_run env cls fmt fuel cmd
     = (RaisedRuntimeError (exn_str fmt (CacheError "cache instance was not provided")),
        cmd).
Proof.
  intros Hno Hreplay Hfuel. cbn zeta. destruct fuel as [|k]; [congruence|].
  unfold RSSCommand_init. rewrite Hno. cbn [negb fst snd].
  split; [reflexivity|]. split; [reflexivity|].
  unfold RSSCommand_run. cbn [parsed_args backend outfile]. rewrite Hreplay.
  rewrite write_items_step, (proj1 (replay_next_created env _)).
  reflexivity.
Qed.

Lemma X11_run_replay_without_cache_witness :
  let cmd := RSSCommand_init scenario_cache_class "/home/u"
               (scenario_args "http://x/feed" true true) [] in
  RSSCommand_run scenario_env scenario_cache_class scenario_formatting 1 cmd
  = (RaisedRuntimeError "cache instance was not provided", cmd).
Proof.
  cbn zeta.
  exact (proj2 (proj2 (X11_run_replay_without_cache scenario_env scenario_cache_class
                         scenario_formatting "/home/u"
                         (scenario_args "http://x/feed" true true) [] 1
                         eq_refl eq_refl ltac:(discriminate)))).
Defined.

(** X12: a [run] asked to fetch from the cache never sends a request and
    never purges, pushes to or flushes the cache queue, however it ends:
    all the backend does is at most one retrieve on the cache, followed at
    most by one parse of the first payload retrieved, and the cache queue
    is left as it was. *)
Theorem X12_run_replay_effects (env : Collaborators) (cls : CacheClass)
  (fmt : Formatting) (fuel : nat) (cmd : RSSCommand) :
  fetch_cache (parsed_args cmd) = true ->
  let out := RSSCommand_run env cls fmt fuel cmd in
  let evs := new_effects (backend cmd) (backend (snd out)) in
  (evs = []
   \/ evs = [CacheRetrieve]
   \/ exists c payload more,
        cache (self (backend cmd)) = Some c
        /\ Cache_retrieve c = payload :: more
        /\ evs = [CacheRetrieve; ParseFeed payload])
  /\ cache_queue (self (backend (snd out))) = cache_queue (self (backend cmd)).
Proof.
  intros Hreplay. cbn zeta. unfold RSSCommand_run. rewrite Hreplay.
  destruct (write_items_world fmt (fetch_from_cache_next env) fuel MetaCreated
              (backend cmd) (outfile cmd)) as (n & _ & Hw).
  pose proof (run_replay_effects env n (backend cmd)) as Hev. cbn zeta in Hev.
  destruct (replay_consume_self env n MetaCreated (backend cmd) (backend cmd) eq_refl)
    as (_ & _ & _ & evs & Hself & _). cbn zeta in Hself.
  unfold run_fetch_from_cache in Hev. rewrite <- Hw in Hev, Hself.
  set (looped := write_items fmt (fetch_from_cache_next env) fuel MetaCreated
                   (backend cmd) (outfile cmd)) in *.
  assert (Hq : cache_queue (self (snd (fst looped))) = cache_queue (self (backend cmd))).
  { now rewrite Hself. }
  destruct (fst (fst looped)) as [|e|]; cbn [snd with_run backend];
    try (split; [exact Hev|exact Hq]).
  destruct (is_HTTPError e).
  - destruct (response_json fmt e); cbn [snd with_run backend];
      (split; [exact Hev|exact Hq]).
  - destruct (is_IOError e); cbn [snd with_run backend];
      [split; [exact Hev|exact Hq]|].
    destruct (cache (self (snd (fst looped)))); cbn [snd with_run backend];
      (split; [exact Hev|exact Hq]).
Qed.

Lemma X12_run_replay_effects_witness :
  let cmd := RSSCommand_init scenario_cache_class "/home/u"
               (scenario_args "http://x/feed" false true) [] in
  let out := RSSCommand_run scenario_env scenario_cache_class scenario_formatting 3 cmd in
  cache_queue (self (backend (snd out))) = cache_queue (self (backend cmd)).
Proof.
  cbn zeta.
  exact (proj2 (X12_run_replay_effects scenario_env scenario_cache_class
                  scenario_formatting 3
                  (RSSCommand_init scenario_cache_class "/home/u"
                     (scenario_args "http://x/feed" false true) [])
                  eq_refl)).
Defined.

(** ** The directory of the cache *)

Lemma append_cancel (p a b : string) : p +:+ a = p +:+ b -> a = b.
Proof. induction p as [|c p IH]; cbn [append]; [auto|]. intros [= H]. auto. Qed.

(** X13: the text of the cache directory tells URLs apart: under the
    same [cache_path] option and the same home directory, two different
    URLs, neither of which starts with the path separator, give different
    texts to the cache, the URL being appended as it is.  The texts are not
    normalised: what two different texts resolve to in a file system is not
    compared. *)
Theorem X13_cache_path_per_url (userhome : string) (args1 args2 : ParsedArgs) :
  cache_path args1 = cache_path args2 ->
  starts_with_sep (args_url args1) = false ->
  starts_with_sep (args_url args2) = false ->
  args_url args1 <> args_url args2 ->
  command_cache_path userhome args1 <> command_cache_path userhome args2.
Proof.
  intros Hcp H1 H2 Hne. unfold command_cache_path, path_join. rewrite Hcp, H1, H2.
  cbn zeta. intros H. apply Hne. revert H.
  match goal with
  | |- context [if ?b || ?b' then _ else _] => destruct (b || b')
  end.
  - apply append_cancel.
  - intros H. apply append_cancel in H. now apply (append_cancel "/") in H.
Qed.

Lemma X13_cache_path_per_url_witness :
  command_cache_path "/home/u/" (scenario_args "http://x/feed" false false)
  <> command_cache_path "/home/u/" (scenario_args "http://x/undated" false false).
Proof.
  apply (X13_cache_path_per_url "/home/u/" (scenario_args "http://x/feed" false false)
           (scenario_args "http://x/undated" false false));
    [reflexivity|reflexivity|reflexivity|discriminate].
Defined.

(** ** The request of a live run *)

Lemma run_fetch_requests_once (env : Collaborators) (k : nat) (w : World) :
  exists rest,
    new_effects w (world_after (run_fetch env (S k) w)) = request_events (self w) ++ rest
    /\ forall u, ~ In (HttpGet u) rest.
Proof.
  destruct (fetched env (client (self w))) as [raw|e] eqn:H1.
  - destruct (feedparser_parse env raw) as [parsed|e] eqn:H2.
    + destruct (run_fetch_by_fuel env (S k) w raw parsed H1 H2) as (_ & _ & Hrest).
      destruct (Hrest ltac:(discriminate)) as (_ & Hev). rewrite Hev.
      unfold flush_events, parse_events. rewrite <- !app_assoc.
      eexists. split; [reflexivity|].
      intros u. unfold closing_log.
      destruct (ended (run_fetch env (S k) w)); cbn [app In];
        intros H; repeat (destruct H as [H|H]; [discriminate|]); exact H.
    + rewrite (run_fetch_parse_fails env k w raw e H1 H2). cbn [world_after].
      rewrite (new_effects_app w _ (parse_events (self w) raw)) by reflexivity.
      unfold parse_events. eexists. split; [reflexivity|].
      intros u H. cbn [In] in H. repeat (destruct H as [H|H]; [discriminate|]). exact H.
  - rewrite (run_fetch_request_fails env k w e H1). cbn [world_after].
    rewrite (new_effects_app w _ (request_events (self w))) by reflexivity.
    exists []. split; [now rewrite app_nil_r|]. intros u [].
Qed.

(** X14: a live [run] of a command sends exactly one request, to the URL
    given on the command line, whatever comes of it: the backend starts
    with its opening log line, the purge of the cache queue and that
    request, and no other request follows. *)
Theorem X14_run_requests_the_url_once (env : Collaborators) (cls : CacheClass)
  (fmt : Formatting) (userhome : string) (args : ParsedArgs)
  (out0 : list string) (fuel : nat) :
  fetch_cache args = false ->
  fuel <> 0%nat ->
  let cmd := RSSCommand_init cls userhome args out0 in
  let out := RSSCommand_run env cls fmt fuel cmd in
  exists rest,
    effects (backend (snd out))
    = [opening_log (self (backend cmd)); PurgeQueue; HttpGet (args_url args)] ++ rest
    /\ forall u, ~ In (HttpGet u) rest.
Proof.
  intros Hlive Hfuel. cbn zeta.
  set (cmd := RSSCommand_init cls userhome args out0).
  destruct (write_items_world fmt (fetch_next env) fuel MetaCreated
              (backend cmd) (outfile cmd)) as (n & Hn & Hw).
  destruct n as [|k]; [now exfalso; apply Hn|].
  destruct (run_fetch_requests_once env k (backend cmd)) as (rest & Hev & Hno).
  unfold run_fetch in Hev. rewrite <- Hw in Hev.
  exists rest. split; [|exact Hno].
  assert (Heff : effects (snd (fst (write_items fmt (fetch_next env) fuel MetaCreated
                                      (backend cmd) (outfile cmd))))
                 = request_events (self (backend cmd)) ++ rest).
  { unfold new_effects in Hev. subst cmd.
    cbn [RSSCommand_init backend effects length] in Hev.
    rewrite drop_0 in Hev. exact Hev. }
  unfold RSSCommand_run. fold cmd.
  replace (fetch_cache (parsed_args cmd)) with false by (symmetry; exact Hlive).
  set (looped := write_items fmt (fetch_next env) fuel MetaCreated
                   (backend cmd) (outfile cmd)) in *.
  assert (Hgoal : effects (snd (fst looped))
                  = [opening_log (self (backend cmd)); PurgeQueue; HttpGet (args_url args)]
                      ++ rest).
  { rewrite Heff. reflexivity. }
  destruct (fst (fst looped)) as [|e|]; cbn [snd with_run backend]; try exact Hgoal.
  destruct (is_HTTPError e).
  - destruct (response_json fmt e); cbn [snd with_run backend]; exact Hgoal.
  - destruct (is_IOError e); cbn [snd with_run backend]; [exact Hgoal|].
    destruct (cache (self (snd (fst looped)))); cbn [snd with_run backend effects];
      exact Hgoal.
Qed.

Lemma X14_run_requests_the_url_once_witness :
  let cmd := RSSCommand_init scenario_cache_class "/home/u"
               (scenario_args "http://x/feed" false false) [] in
  let out := RSSCommand_run scenario_env scenario_cache_class scenario_formatting 3 cmd in
  exists rest,
    effects (backend (snd out))
    = [opening_log (self (backend cmd)); PurgeQueue; HttpGet "http://x/feed"] ++ rest
    /\ forall u, ~ In (HttpGet u) rest.
Proof.
  apply (X14_run_requests_the_url_once scenario_env scenario_cache_class
           scenario_formatting "/home/u" (scenario_args "http://x/feed" false false) [] 3);
    [reflexivity|discriminate].
Defined.

